(** * Marketing campaign dashboard (main.py): a shallow embedding

    The script is a linear pipeline: [load_data] reads one CSV file,
    renames the campaign columns, remaps the customer dates to 2019-2023
    and adds a synthetic Region column; the body guarded by
    [df is not None] filters the frame, computes KPIs and grouped means,
    and fills the yearly trend table with fabricated rows.

    Numbers that Python holds as floats are modelled as exact rationals
    ([Q]); integers are [Z]; pandas columns are lists of cells. *)

From Stdlib Require Import ZArith QArith Lqa Lia.
From stdpp Require Import gmap strings list fin_maps sorting.

Local Open Scope Z_scope.

(** ** The calendar module and pandas timestamps *)

Module Calendar.

(** [calendar.isleap]. *)
Definition isleap (year : Z) : bool :=
  (year mod 4 =? 0) && (negb (year mod 100 =? 0) || (year mod 400 =? 0)).

(** [calendar.mdays], indexed by month (entry 0 is a placeholder). *)
Definition mdays : list Z := [0; 31; 28; 31; 30; 31; 30; 31; 31; 30; 31; 30; 31].

(** Second component of [calendar.monthrange(year, month)]: the number
    of days of the month. *)
Definition monthrange (year month : Z) : Z :=
  default 0 (mdays !! Z.to_nat month)
  + (if (month =? 2) && isleap year then 1 else 0).

(** A [pd.Timestamp], down to the second. *)
Record Timestamp : Type := mkTimestamp {
  year : Z; month : Z; day : Z; hour : Z; minute : Z; second : Z
}.

#[global] Instance Timestamp_eq_dec : EqDecision Timestamp.
Proof. solve_decision. Defined.

(** The dates a timestamp can hold. *)
Definition valid_date (d : Timestamp) : Prop :=
  1 <= month d <= 12 /\ 1 <= day d <= monthrange (year d) (month d).

Definition valid_dateb (y m d : Z) : bool :=
  (1 <=? m) && (m <=? 12) && (1 <=? d) && (d <=? monthrange y m).

(** [pd.Timestamp(year=.., month=.., day=.., hour=.., ...)]: [None]
    stands for the ValueError raised on a day that does not exist. *)
Definition Timestamp_new (y m d h mi s : Z) : option Timestamp :=
  if valid_dateb y m d then Some (mkTimestamp y m d h mi s) else None.

(** [date.replace(year=new_year)]. *)
Definition replace_year (date : Timestamp) (new_year : Z) : option Timestamp :=
  Timestamp_new new_year (month date) (day date)
                (hour date) (minute date) (second date).

End Calendar.
Export Calendar.

(** ** Exceptions and results *)

Inductive exn : Type :=
| KeyError (key : string)
| ValueError
| TypeError
| AttributeError.

Inductive outcome (A : Type) : Type :=
| Return (a : A)
| Raise (e : exn).
Arguments Return {A} a.
Arguments Raise {A} e.

Definition obind {A B} (m : outcome A) (f : A -> outcome B) : outcome B :=
  match m with
  | Return a => f a
  | Raise e => Raise e
  end.

#[global] Instance outcome_ret : MRet outcome := fun A a => Return a.
#[global] Instance outcome_bind : MBind outcome := fun A B f m => obind m f.

Fixpoint omapM {A B} (f : A -> outcome B) (l : list A) : outcome (list B) :=
  match l with
  | [] => Return []
  | a :: l' => b ← f a; bs ← omapM f l'; Return (b :: bs)
  end.

(** ** Year remapping (load_data, lines 42-83) *)

Module YearRemap.

Definition min_year : Z := 2019.
Definition max_year : Z := 2023.

(** [Series.unique()]: the distinct values in order of first appearance. *)
Fixpoint unique_from (seen l : list Z) : list Z :=
  match l with
  | [] => []
  | x :: l' => if decide (x ∈ seen) then unique_from seen l'
               else x :: unique_from (x :: seen) l'
  end.
Definition unique (l : list Z) : list Z := unique_from [] l.

(** [sorted(...)] on integers. *)
Definition sorted (l : list Z) : list Z := merge_sort Z.le l.

(** The loop [for i, year in enumerate(sorted(original_years))]
    filling the dict [year_mapping]. *)
Fixpoint year_mapping_loop (i : Z) (years : list Z) (m : gmap Z Z) : gmap Z Z :=
  match years with
  | [] => m
  | y :: years' =>
      let mapped_year := min_year + (i mod (max_year - min_year + 1)) in
      year_mapping_loop (i + 1) years' (<[y := mapped_year]> m)
  end.

Definition year_mapping (dates : list Timestamp) : gmap Z Z :=
  let original_years := unique (year <$> dates) in
  year_mapping_loop 0 (sorted original_years) ∅.

(** One iteration of the loop [for date in df['Dt_Customer']]. *)
Definition remap_date (ym : gmap Z Z) (date : Timestamp) : outcome Timestamp :=
  let old_year := year date in
  match ym !! old_year with
  | None => Raise (KeyError "year")
  | Some new_year =>
      let m := month date in
      let d := day date in
      if (m =? 2) && (d =? 29) && negb (isleap new_year) then
        match Timestamp_new new_year 2 28 (hour date) (minute date) (second date) with
        | Some nd => Return nd
        | None => Raise ValueError
        end
      else
        match replace_year date new_year with
        | Some nd => Return nd
        | None =>
            let last_day := monthrange new_year m in
            match Timestamp_new new_year m last_day
                    (hour date) (minute date) (second date) with
            | Some nd => Return nd
            | None => Raise ValueError
            end
        end
  end.

Definition new_dates (dates : list Timestamp) : outcome (list Timestamp) :=
  omapM (remap_date (year_mapping dates)) dates.

(** The rank of a year among the distinct years of the column: how many
    distinct years are smaller. *)
Definition rank (y : Z) (years : list Z) : Z :=
  Z.of_nat (length (filter (fun z => z < y) (unique years))).

End YearRemap.
Export YearRemap.

(** ** Data frames *)

Module Frame.

(** One entry of a column. [VNaN] is a missing value. *)
Inductive cell : Type :=
| VInt (z : Z)
| VStr (s : string)
| VDate (t : Timestamp)
| VNaN.

#[global] Instance cell_eq_dec : EqDecision cell.
Proof. solve_decision. Defined.

(** A frame is the ordered list of its named columns. *)
Abbreviation DataFrame := (list (string * list cell)).

(** [df.columns]. *)
Definition columns (df : DataFrame) : list string := df.*1.

(** [df[name]]. *)
Fixpoint get_column (df : DataFrame) (name : string) : outcome (list cell) :=
  match df with
  | [] => Raise (KeyError name)
  | (n, c) :: df' => if String.eqb n name then Return c else get_column df' name
  end.

(** [df[name] = values]: replaces the column of that name, or appends a
    new last column. *)
Fixpoint set_column (name : string) (values : list cell) (df : DataFrame) : DataFrame :=
  match df with
  | [] => [(name, values)]
  | (n, c) :: df' =>
      if String.eqb n name then (n, values) :: df'
      else (n, c) :: set_column name values df'
  end.

(** [df.rename(columns=mapping)]: names absent from the mapping stay. *)
Definition rename (mapping : gmap string string) (df : DataFrame) : DataFrame :=
  (fun nc => (default nc.1 (mapping !! nc.1), nc.2)) <$> df.

(** Boolean indexing of one column. *)
Fixpoint mask_rows {A} (mask : list bool) (col : list A) : list A :=
  match mask, col with
  | b :: mask', x :: col' =>
      if b then x :: mask_rows mask' col' else mask_rows mask' col'
  | _, _ => []
  end.

(** [df[mask]]. *)
Definition select_rows (mask : list bool) (df : DataFrame) : DataFrame :=
  (fun nc => (nc.1, mask_rows mask nc.2)) <$> df.

(** [series.isin(values)]. *)
Definition isin (col : list cell) (values : list cell) : list bool :=
  (fun c => bool_decide (c ∈ values)) <$> col.

(** [series == value]. *)
Definition eq_mask (col : list cell) (value : cell) : list bool :=
  (fun c => bool_decide (c = value)) <$> col.

(** The numbers of a column, missing values skipped as pandas'
    reductions do; text and dates are not numbers. *)
Fixpoint numeric_values (col : list cell) : outcome (list Q) :=
  match col with
  | [] => Return []
  | VInt z :: col' => qs ← numeric_values col'; Return (inject_Z z :: qs)
  | VNaN :: col' => numeric_values col'
  | _ :: _ => Raise TypeError
  end.

Definition Qsum (l : list Q) : Q := foldr Qplus 0%Q l.

(** Mean of a list of numbers; [None] is the NaN of an empty mean. *)
Definition mean (l : list Q) : option Q :=
  match l with
  | [] => None
  | _ => Some (Qsum l / inject_Z (Z.of_nat (length l)))%Q
  end.

(** [series.mean()]. *)
Definition Series_mean (col : list cell) : outcome (option Q) :=
  qs ← numeric_values col; Return (mean qs).

(** The accessor [series.dt] on a column assigned from a Python list:
    pandas infers the type of the column from the entries of the list, so
    the column is a datetime column, and has the accessor, only if the
    list has entries and they are timestamps. *)
Definition dt (col : list cell) : outcome (list Timestamp) :=
  match col with
  | [] => Raise AttributeError
  | _ => omapM (fun c => match c with
                         | VDate t => Return t
                         | _ => Raise AttributeError
                         end) col
  end.

End Frame.
Export Frame.

(** ** The user interface: the calls into streamlit, in order *)

Inductive event : Type :=
| StError (msg : string)
| StText (kind text : string)
| StMetric (label : string) (value : option Q)
| StPlotlyChart (title : string).

(** A step of the script: what it showed, and how it ended. *)
Definition ui (A : Type) : Type := (list event * outcome A)%type.

Definition ui_bind {A B} (m : ui A) (f : A -> ui B) : ui B :=
  match m with
  | (log, Return a) => let '(log', r) := f a in (log ++ log', r)
  | (log, Raise e) => (log, Raise e)
  end.

#[global] Instance ui_ret : MRet ui := fun A a => ([], Return a).
#[global] Instance ui_mbind : MBind ui := fun A B f m => ui_bind m f.

Definition emit (e : event) : ui unit := ([e], Return tt).
Definition lift {A} (o : outcome A) : ui A := ([], o).

(** ** load_data (lines 26-99) *)

Section LoadData.

(** [pd.to_datetime] on one entry of the column that is not missing:
    the pandas date parser is taken as given.  [None] is an entry it does
    not turn into a timestamp, on which it raises. *)
Variable pd_to_datetime : cell -> option Timestamp.

Definition campaign_mapping : gmap string string :=
  <["AcceptedCmp4" := "Winter Seafood Discount"]>
  (<["AcceptedCmp3" := "Autumn Meat Sampler"]>
  (<["AcceptedCmp2" := "Summer Fruit Bundle"]>
  (<["AcceptedCmp1" := "Spring Wine Festival"]> ∅))).

Definition region_map : gmap Z string :=
  <[3 := "West"]> (<[2 := "East"]> (<[1 := "South"]> (<[0 := "North"]> ∅))).

(** [pd.to_datetime(series)]: the result is a datetime column whatever
    its length; a missing entry becomes NaT (kept as [VNaN]), every other
    entry goes through the parser. *)
Definition to_datetime (col : list cell) : outcome (list cell) :=
  omapM (fun c => match c with
                  | VNaN => Return VNaN
                  | _ => match pd_to_datetime c with
                         | Some t => Return (VDate t)
                         | None => Raise ValueError
                         end
                  end) col.

(** The dates the loop of lines 59-79 reads from the datetime column.
    The year of NaT is NaN, which is no key of [year_mapping]: on a NaT
    entry the lookup of line 61 raises KeyError. *)
Definition loop_dates (col : list cell) : outcome (list Timestamp) :=
  omapM (fun c => match c with
                  | VDate t => Return t
                  | VNaN => Raise (KeyError "nan")
                  | _ => Raise AttributeError
                  end) col.

(** [series % 4] on one entry. *)
Definition cell_mod (c : cell) (k : Z) : outcome cell :=
  match c with
  | VInt z => Return (VInt (z mod k))
  | VNaN => Return VNaN
  | _ => Raise TypeError
  end.

(** [series.map(region_map)] on one entry: a key absent from the dict
    gives a missing value. *)
Definition map_region (c : cell) : cell :=
  match c with
  | VInt z => match region_map !! z with Some r => VStr r | None => VNaN end
  | _ => VNaN
  end.

Definition month_names : list string :=
  ["January"; "February"; "March"; "April"; "May"; "June"; "July";
   "August"; "September"; "October"; "November"; "December"].

(** [strftime('%B')]. *)
Definition month_name (t : Timestamp) : cell :=
  VStr (default "" (month_names !! Z.to_nat (month t - 1))).

(** The branch taken when the file exists; [df] is what [pd.read_csv]
    returned. *)
Definition prepare (df : DataFrame) : outcome DataFrame :=
  let df := rename campaign_mapping df in
  col ← get_column df "Dt_Customer";
  parsed ← to_datetime col;
  let df := set_column "Dt_Customer" parsed df in
  col ← get_column df "Dt_Customer";
  dates ← loop_dates col;
  nd ← new_dates dates;
  let df := set_column "Dt_Customer" (VDate <$> nd) df in
  col ← get_column df "Dt_Customer";
  ts ← dt col;
  let df := set_column "Year" ((fun t => VInt (year t)) <$> ts) df in
  let df := set_column "Month" ((fun t => VInt (month t)) <$> ts) df in
  let df := set_column "Month_Name" (month_name <$> ts) df in
  ids ← get_column df "ID";
  rem ← omapM (fun c => cell_mod c 4) ids;
  Return (set_column "Region" (map_region <$> rem) df).

(** [load_data()]: [file] is [None] when marketing_campaign.csv does not
    exist, else the table read from it. *)
Definition load_data (file : option DataFrame) : ui (option DataFrame) :=
  match file with
  | Some df => df' ← lift (prepare df); mret (Some df')
  | None =>
      _ ← emit (StError "marketing_campaign.csv file not found.");
      mret None
  end.

End LoadData.

(** ** The dashboard body (lines 104-308) *)

Module Dashboard.

(** [COLORS.keys()], in insertion order. *)
Definition COLORS_keys : list string :=
  ["Spring Wine Festival"; "Summer Fruit Bundle";
   "Autumn Meat Sampler"; "Winter Seafood Discount"].

(** Lines 127-136: [filtered_df] from the two sidebar selections. *)
Definition education_filter (df : DataFrame) (selected_education : list cell)
  : outcome DataFrame :=
  match selected_education with
  | _ :: _ =>
      ed ← get_column df "Education";
      Return (select_rows (isin ed selected_education) df)
  | [] => Return df
  end.

Definition region_filter (df filtered_df : DataFrame) (selected_region : string)
  : outcome DataFrame :=
  if bool_decide ("Region" ∈ columns df)
     && negb (String.eqb selected_region "All Regions")
  then
    rg ← get_column filtered_df "Region";
    Return (select_rows (eq_mask rg (VStr selected_region)) filtered_df)
  else Return filtered_df.

Definition filtered (df : DataFrame) (selected_education : list cell)
           (selected_region : string) : outcome DataFrame :=
  filtered_df ← education_filter df selected_education;
  region_filter df filtered_df selected_region.

(** Line 146: [filtered_df['Response'].mean() * 100]. *)
Definition response_rate (filtered_df : DataFrame) : outcome (option Q) :=
  col ← get_column filtered_df "Response";
  m ← Series_mean col;
  Return (option_map (fun q => q * 100)%Q m).

(** Lines 194-198: [pd.cut(..., right=False)] on one number: the label
    of the first bin [lo <= x < hi], none outside the bins. *)
Definition age_bins : list Z := [20; 35; 50; 65; 90].
Definition age_labels : list string := ["20-34"; "35-49"; "50-64"; "65+"].

Fixpoint cut (bins : list Z) (labels : list string) (x : Z) : option string :=
  match bins, labels with
  | lo :: ((hi :: _) as bins'), lab :: labels' =>
      if (lo <=? x) && (x <? hi) then Some lab else cut bins' labels' x
  | _, _ => None
  end.

Definition cut_cell (c : cell) : outcome cell :=
  match c with
  | VInt a => Return (match cut age_bins age_labels a with
                      | Some lab => VStr lab
                      | None => VNaN
                      end)
  | VNaN => Return VNaN
  | _ => Raise TypeError
  end.

Definition add_age_group (filtered_df : DataFrame) : outcome DataFrame :=
  ages ← get_column filtered_df "Age";
  groups ← omapM cut_cell ages;
  Return (set_column "Age_Group" groups filtered_df).

(** Line 201: [groupby('Age_Group')['Response'].mean()]: one mean per
    label, over the rows carrying that label; rows without a group
    belong to no label. *)
Definition age_response (filtered_df : DataFrame)
  : outcome (list (string * option Q)) :=
  groups ← get_column filtered_df "Age_Group";
  resp ← get_column filtered_df "Response";
  omapM (fun lab =>
           m ← Series_mean (mask_rows (eq_mask groups (VStr lab)) resp);
           Return (lab, m)) age_labels.

End Dashboard.
Export Dashboard.

(** ** The yearly trend table and its synthetic rows (lines 228-308) *)

(** A row of [yearly_trends]: the year and the rate of each campaign.  A
    campaign absent from [values] is a NaN entry. *)
Record trend_row : Type := mkRow { Year : Z; values : gmap string Q }.

(** The three dicts of lines 239-250. *)
Record rates : Type := mkRates {
  min_rates : gmap string Q;
  max_rates : gmap string Q;
  avg_rates : gmap string Q
}.

(** Python's two-argument [min] and [max]: the first argument wins ties. *)
Definition py_min (a b : Q) : Q := if Qle_bool a b then a else b.
Definition py_max (a b : Q) : Q := if Qle_bool b a then a else b.

Section Trends.

(** [math.sin] and [math.pi], as the floats Python computes with. *)
Variable math_sin : Q -> Q.
Variable math_pi : Q.

(** [yearly_trends[campaign]], NaN entries dropped as the reductions do. *)
Definition trend_column (yt : list trend_row) (campaign : string) : list Q :=
  omap (fun r => values r !! campaign) yt.

Definition Series_min (l : list Q) : option Q :=
  match l with [] => None | x :: l' => Some (foldl py_min x l') end.
Definition Series_max (l : list Q) : option Q :=
  match l with [] => None | x :: l' => Some (foldl py_max x l') end.

Definition set_rate (campaign : string) (v : option Q) (m : gmap string Q)
  : gmap string Q :=
  match v with Some q => <[campaign := q]> m | None => m end.

(** Lines 238-250: the three dicts.  The products and the means are the
    exact ones; the doubles Python computes with can differ from them in
    the last place. *)
Definition derive_rates (yt : list trend_row) : rates :=
  match yt with
  | _ :: _ =>
      foldl (fun r campaign =>
               let col := trend_column yt campaign in
               mkRates
                 (set_rate campaign
                    (option_map (fun q => q * (9 # 10)) (Series_min col))
                    (min_rates r))
                 (set_rate campaign
                    (option_map (fun q => py_min (q * (11 # 10)) (35 # 100))
                       (Series_max col))
                    (max_rates r))
                 (set_rate campaign (mean col) (avg_rates r)))%Q
            (mkRates ∅ ∅ ∅) COLORS_keys
  | [] =>
      mkRates (list_to_map ((fun c => (c, 5 # 100)%Q) <$> COLORS_keys))
              (list_to_map ((fun c => (c, 25 # 100)%Q) <$> COLORS_keys))
              (list_to_map ((fun c => (c, 15 # 100)%Q) <$> COLORS_keys))
  end.

(** Lines 268-302: the trend formula of one campaign in one year. *)
Definition trend_value (campaign : string) (year : Z)
           (min_rate base_value max_rate : Q) : Q :=
  (if String.eqb campaign "Spring Wine Festival" then
     if (year <? 2021)%Z then
       min_rate + inject_Z (year - 2019) * (base_value - min_rate) / 3
     else
       base_value + inject_Z (year - 2021) * (max_rate - base_value) / 4
   else if String.eqb campaign "Summer Fruit Bundle" then
     let cycle := inject_Z (year - 2019) / 2 in
     let amplitude :=
       (1 # 2) * math_sin (cycle * math_pi) * (max_rate - min_rate) / 3 in
     base_value + amplitude
   else if String.eqb campaign "Autumn Meat Sampler" then
     let progress := inject_Z (year - 2019) / 5 in
     min_rate + progress * (max_rate - min_rate) * (8 # 10)
   else
     if (year <? 2021)%Z then
       min_rate + inject_Z (year - 2019) * (max_rate - min_rate) / 2
     else if (year <? 2023)%Z then
       max_rate - inject_Z (year - 2021) * (max_rate - min_rate) / 3
     else
       min_rate + inject_Z (year - 2023) * (base_value - min_rate) / 2)%Q.

(** Line 305: the value stored in [new_row[campaign]]. *)
Definition generated (r : rates) (campaign : string) (year : Z) : option Q :=
  base_value ← avg_rates r !! campaign;
  mn ← min_rates r !! campaign;
  mx ← max_rates r !! campaign;
  let value := trend_value campaign year mn base_value mx in
  Some (py_max mn (py_min value mx)).

(** Lines 263-305: the dict [new_row] of one missing year. *)
Definition new_row (r : rates) (year : Z) : trend_row :=
  mkRow year
        (foldl (fun row campaign => set_rate campaign (generated r campaign year) row)
               ∅ COLORS_keys).

Definition all_years : list Z := [2019; 2020; 2021; 2022; 2023; 2024].

Definition existing_years (yt : list trend_row) : list Z := unique (Year <$> yt).

Definition missing_years (yt : list trend_row) : list Z :=
  filter (fun y => y ∉ existing_years yt) all_years.

(** Lines 253-308: each missing year appends one row to the table. *)
Definition fill_missing (yt : list trend_row) : list trend_row :=
  let r := derive_rates yt in
  if (length (existing_years yt) <? 6)%nat then
    foldl (fun yearly_trends year => yearly_trends ++ [new_row r year])
          yt (missing_years yt)
  else yt.

End Trends.

(** ** The script: load, then the guarded body *)

Section Script.

Variable pd_to_datetime : cell -> option Timestamp.
Variable math_sin : Q -> Q.
Variable math_pi : Q.

(** Everything the script does after line 308 (the charts of the trend
    table, the monthly views and the regional analysis). *)
Variable rest : DataFrame -> list trend_row -> ui unit.

(** The integer keys of a grouping column, sorted; missing keys form no
    group. *)
Definition group_keys (col : list cell) : list Z :=
  sorted (unique (omap (fun c => match c with VInt z => Some z | _ => None end) col)).

(** Lines 230-232: [groupby('Year')[campaigns].mean().reset_index()]. *)
Definition yearly_trends (filtered_df : DataFrame) : outcome (list trend_row) :=
  years ← get_column filtered_df "Year";
  cols ← omapM (fun c => col ← get_column filtered_df c; Return (c, col)) COLORS_keys;
  omapM (fun y =>
           ms ← omapM (fun nc : string * list cell =>
                         m ← Series_mean (mask_rows (eq_mask years (VInt y)) nc.2);
                         Return (nc.1, m)) cols;
           Return (mkRow y (foldl (fun row (cm : string * option Q) =>
                                     set_rate cm.1 cm.2 row) ∅ ms)))
        (group_keys years).






End Script.

(** ** The trend chart (lines 310-437) *)

(** Lines 311-312: the four campaign columns as percentages. *)
Definition to_percent (yt : list trend_row) : list trend_row :=
  (fun r => mkRow (Year r)
                  (foldl (fun m campaign => alter (fun q => q * 100)%Q campaign m)
                         (values r) COLORS_keys)) <$> yt.

(** Line 315: [sort_values('Year')]. *)
Definition year_le (r1 r2 : trend_row) : Prop := Year r1 <= Year r2.

#[global] Instance year_le_dec : RelDecision year_le.
Proof. intros r1 r2. unfold year_le. apply _. Defined.

Definition sort_by_year (yt : list trend_row) : list trend_row :=
  merge_sort year_le yt.

(** Lines 366-367, 380-381, 394-395, 408-409, 422-423: the height of an
    annotation, [.values[0]] of the melted rows of one year and one
    campaign.  [None] is the IndexError of an empty selection,
    [Some None] a NaN entry. *)
Definition annotation_y (yt : list trend_row) (year : Z) (campaign : string)
  : option (option Q) :=
  match filter (fun r => Year r = year) (sort_by_year (to_percent yt)) with
  | r :: _ => Some (values r !! campaign)
  | [] => None
  end.

(** Lines 362-433: the five annotations. *)
Definition annotations : list (Z * string) :=
  [(2023, "Spring Wine Festival"); (2024, "Spring Wine Festival");
   (2021, "Summer Fruit Bundle"); (2022, "Autumn Meat Sampler");
   (2024, "Winter Seafood Discount")].

(** ** The best month of each campaign (lines 445-471) *)

(** A row of [monthly_performance]. *)
Record month_row : Type := mkMonthRow { Month : Z; month_values : gmap string Q }.

(** The dict [month_names] of line 445, which line 463 also calls
    [month_map]. *)
Definition month_map : gmap Z string :=
  list_to_map [(1, "JAN"); (2, "FEB"); (3, "MAR"); (4, "APR");
               (5, "MAY"); (6, "JUN"); (7, "JUL"); (8, "AUG");
               (9, "SEP"); (10, "OCT"); (11, "NOV"); (12, "DEC")].

(** Lines 451-453: [groupby('Month')[campaigns].mean().reset_index()]. *)
Definition monthly_performance (filtered_df : DataFrame) : outcome (list month_row) :=
  months ← get_column filtered_df "Month";
  cols ← omapM (fun c => col ← get_column filtered_df c; Return (c, col)) COLORS_keys;
  omapM (fun m =>
           ms ← omapM (fun nc : string * list cell =>
                         a ← Series_mean (mask_rows (eq_mask months (VInt m)) nc.2);
                         Return (nc.1, a)) cols;
           Return (mkMonthRow m (foldl (fun row (cm : string * option Q) =>
                                          set_rate cm.1 cm.2 row) ∅ ms)))
        (group_keys months).

(** [series.idxmax()]: the position of the first largest entry, NaN
    entries skipped; [best] is the largest entry so far. *)
Fixpoint idxmax_from (i : nat) (best : option (nat * Q)) (l : list (option Q))
  : option (nat * Q) :=
  match l with
  | [] => best
  | None :: l' => idxmax_from (S i) best l'
  | Some q :: l' =>
      match best with
      | Some (_, b) =>
          if Qle_bool q b then idxmax_from (S i) best l'
          else idxmax_from (S i) (Some (i, q)) l'
      | None => idxmax_from (S i) (Some (i, q)) l'
      end
  end.

(** A series without a number has no largest entry: the call raises. *)
Definition idxmax (l : list (option Q)) : outcome nat :=
  match idxmax_from 0 None l with
  | Some (i, _) => Return i
  | None => Raise ValueError
  end.

(** Lines 467-471: one iteration of the loop over the campaigns. *)
Definition best_month (mp : list month_row) (campaign : string)
  : outcome (string * option Q) :=
  best_month_idx ← idxmax ((fun r => month_values r !! campaign) <$> mp);
  match mp !! best_month_idx with
  | None => Raise (KeyError "best_month_idx")
  | Some row =>
      let best_month_num := Month row in
      match month_map !! best_month_num with
      | None => Raise (KeyError "best_month_num")
      | Some best_month_name =>
          let best_rate :=
            option_map (fun q => q * 100)%Q (month_values row !! campaign) in
          Return (best_month_name, best_rate)
      end
  end.

(** The dict [best_months], in insertion order. *)
Definition best_months (mp : list month_row)
  : outcome (list (string * (string * option Q))) :=
  omapM (fun campaign => b ← best_month mp campaign; Return (campaign, b)) COLORS_keys.

(** ** The year comparison (lines 568-637) *)

(** A row of [yearly_monthly_trends]; the rate is a percentage, [None]
    a NaN. *)
Record ym_row : Type := mkYM { ym_Year : Z; ym_Month : Z; Response_Rate : option Q }.

(** The pairs (year, month) some row carries, in increasing order. *)
Definition observed_pairs (years months : list cell) : list (Z * Z) :=
  y ← group_keys years;
  m ← group_keys months;
  if existsb id (zip_with andb (eq_mask years (VInt y)) (eq_mask months (VInt m)))
  then [(y, m)] else [].

(** Lines 568-577: [groupby(['Year', 'Month'])['Response'].mean()], as
    percentages, sorted by year and month. *)
Definition yearly_monthly_trends (filtered_df : DataFrame) : outcome (list ym_row) :=
  years ← get_column filtered_df "Year";
  months ← get_column filtered_df "Month";
  resp ← get_column filtered_df "Response";
  omapM (fun ym : Z * Z =>
           a ← Series_mean
                 (mask_rows (zip_with andb (eq_mask years (VInt ym.1))
                                           (eq_mask months (VInt ym.2))) resp);
           Return (mkYM ym.1 ym.2 (option_map (fun q => q * 100)%Q a)))
        (observed_pairs years months).

(** Lines 580-586: the latest two years of the data. *)
Definition available_years (trends : list ym_row) : list Z :=
  sorted (unique (ym_Year <$> trends)).

Definition real_comparison_years (trends : list ym_row) : list Z :=
  let years := available_years trends in
  if (2 <=? length years)%nat then drop (length years - 2) years else years.

(** Lines 592-596: the dict that relabels them 2023 and 2024. *)
Definition comparison_year_mapping (real_years : list Z) : gmap Z Z :=
  match real_years with
  | y0 :: y1 :: _ => <[y1 := 2024]> (<[y0 := 2023]> ∅)
  | [y0] => <[y0 := 2023]> ∅
  | [] => ∅
  end.

(** Lines 589 and 599-600: the rows of those years, relabelled; a year
    the dict lacks would become NaN. *)
Definition comparison_data (trends : list ym_row) : list (option Z * ym_row) :=
  let real_years := real_comparison_years trends in
  (fun r => (comparison_year_mapping real_years !! ym_Year r, r))
    <$> filter (fun r => ym_Year r ∈ real_years) trends.

(** Lines 615-626: the rate shown for one year and month. *)
Definition grid_rate (data : list (option Z * ym_row)) (year month : Z) : option Q :=
  match filter (fun r => r.1 = Some year /\ ym_Month r.2 = month) data with
  | r :: _ => Response_Rate r.2
  | [] =>
      let year_avg :=
        mean (omap (fun r => Response_Rate r.2)
                   (filter (fun r => r.1 = Some year) data)) in
      match year_avg with
      | Some a => Some a
      | None => Some 0%Q
      end
  end.

(** A row of the completed table of line 637. *)
Record grid_row : Type := mkGrid {
  grid_Year : Z; grid_Month : Z; grid_Month_Name : string; grid_Rate : option Q
}.

(** Lines 603-637: every month of 2023 and of 2024. *)
Definition full_data_list (data : list (option Z * ym_row)) : outcome (list grid_row) :=
  rows ← omapM (fun year =>
                  omapM (fun month =>
                           match month_map !! month with
                           | Some month_name =>
                               Return (mkGrid year month month_name
                                              (grid_rate data year month))
                           | None => Raise (KeyError "month")
                           end)
                        (seqZ 1 12))
               [2023; 2024];
  Return (concat rows).

(** ** Notions used to state the properties *)

(** What one iteration of the loop makes of a date. *)
Definition remapped (new_year : Z) (d d' : Timestamp) : Prop :=
  year d' = new_year /\
  month d' = month d /\
  day d' = (if (month d =? 2) && (day d =? 29) && negb (isleap new_year)
            then 28 else day d) /\
  hour d' = hour d /\ minute d' = minute d /\ second d' = second d.

(** The new name of a column under line 40. *)
Definition renamed (n : string) : string := default n (campaign_mapping !! n).


(** A row of the loaded frame whose Region is one of the four names. *)
Definition named_region (region : cell) : Prop :=
  region = VStr "North" \/ region = VStr "South" \/
  region = VStr "East" \/ region = VStr "West".

(** Two entries of a rate dict hold the same number, or are both absent. *)
Definition same_rate (a b : option Q) : Prop := option_Forall2 Qeq a b.

(** How many entries of a column are the integer 1. *)
Definition ones (col : list cell) : nat :=
  length (filter (fun c => c = VInt 1) col).

(** Membership of a column entry in the half-open bin [lo, hi). *)
Definition in_bin (lo hi : Z) (c : cell) : bool :=
  match c with
  | VInt a => (lo <=? a) && (a <? hi)
  | _ => false
  end.

(** The group [pd.cut] gives to an entry that is a number or missing. *)
Definition group_of (c : cell) : cell :=
  match c with
  | VInt a => match cut age_bins age_labels a with
              | Some lab => VStr lab
              | None => VNaN
              end
  | _ => VNaN
  end.

(** The rows lines 253-308 append. *)
Definition added_rows (math_sin : Q -> Q) (math_pi : Q)
           (yt : list trend_row) : list trend_row :=
  if (length (existing_years yt) <? 6)%nat
  then new_row math_sin math_pi (derive_rates yt) <$> missing_years yt
  else [].

(** The rate the comparison shows for one month of one year of the
    data: the observed rate, else the mean of the year's observed rates,
    else 0. *)
Definition year_rate (trends : list ym_row) (y month : Z) : option Q :=
  match filter (fun r => ym_Year r = y /\ ym_Month r = month) trends with
  | r :: _ => Response_Rate r
  | [] =>
      match mean (omap Response_Rate (filter (fun r => ym_Year r = y) trends)) with
      | Some a => Some a
      | None => Some 0%Q
      end
  end.

(** * Properties *)

(** ** Results and lists of results *)

Lemma omapM_Return {A B} (f : A -> outcome B) (g : A -> B) (l : list A) :
  (forall a, a ∈ l -> f a = Return (g a)) -> omapM f l = Return (g <$> l).
Proof.
  induction l as [|a l IH]; intros Hf; [done|].
  cbn. rewrite (Hf a) by left. cbn.
  rewrite IH; [done|]. intros b Hb. apply Hf. by right.
Qed.

Lemma omapM_inv {A B} (f : A -> outcome B) (l : list A) (bs : list B) :
  omapM f l = Return bs -> Forall2 (fun a b => f a = Return b) l bs.
Proof.
  revert bs. induction l as [|a l IH]; intros bs; cbn.
  - intros [= <-]. constructor.
  - destruct (f a) as [b|e] eqn:Hfa; cbn; [|done].
    destruct (omapM f l) as [bs'|e] eqn:Hl; cbn; [|done].
    intros [= <-]. constructor; [done|]. by apply IH.
Qed.

(** ** Year remapping *)

Section YearRemapFacts.

Lemma unique_from_spec seen l x :
  x ∈ unique_from seen l <-> x ∈ l /\ x ∉ seen.
Proof.
  revert seen. induction l as [|a l IH]; intros seen; cbn.
  - rewrite elem_of_nil. tauto.
  - destruct (decide (a ∈ seen)) as [Hin|Hin].
    + rewrite IH, elem_of_cons. split; [tauto|].
      intros [[->|?] ?]; tauto.
    + rewrite !elem_of_cons, IH, not_elem_of_cons.
      destruct (decide (x = a)) as [->|]; tauto.
Qed.

Lemma unique_from_NoDup seen l : NoDup (unique_from seen l).
Proof.
  revert seen. induction l as [|a l IH]; intros seen; cbn.
  - constructor.
  - destruct (decide (a ∈ seen)); [apply IH|].
    constructor; [|apply IH].
    rewrite unique_from_spec, not_elem_of_cons. tauto.
Qed.

Lemma elem_of_unique l x : x ∈ unique l <-> x ∈ l.
Proof. unfold unique. rewrite unique_from_spec, elem_of_nil. tauto. Qed.

Lemma NoDup_unique l : NoDup (unique l).
Proof. apply unique_from_NoDup. Qed.

Lemma sorted_Permutation l : sorted l ≡ₚ l.
Proof. apply merge_sort_Permutation. Qed.

Lemma sorted_increasing l : NoDup l -> StronglySorted Z.lt (sorted l).
Proof.
  intros Hnd.
  assert (Hs : StronglySorted Z.le (sorted l))
    by (apply StronglySorted_merge_sort; apply _).
  assert (Hnd' : NoDup (sorted l)) by (by rewrite sorted_Permutation).
  induction Hs as [|a k Hk IH Hall]; [constructor|].
  apply NoDup_cons in Hnd' as [Hnotin Hnd'].
  constructor; [by apply IH|].
  rewrite Forall_forall in Hall |- *. intros z Hz.
  specialize (Hall z Hz).
  assert (a <> z) by (intros ->; done). lia.
Qed.

Lemma filter_below_none (l : list Z) (y : Z) :
  (forall z, z ∈ l -> y < z) -> filter (fun z => z < y) l = [].
Proof.
  induction l as [|a l IH]; intros Hall; [done|].
  rewrite filter_cons_False.
  - apply IH. intros z Hz. apply Hall. by right.
  - assert (y < a) by (apply Hall; left). lia.
Qed.

(** In a strictly increasing list, the position of an entry is the
    number of entries below it. *)
Lemma increasing_position (l : list Z) (k : nat) (y : Z) :
  StronglySorted Z.lt l -> l !! k = Some y ->
  length (filter (fun z => z < y) l) = k.
Proof.
  intros Hs. revert k. induction Hs as [|a l Hs IH Hall]; intros k Hk; [done|].
  rewrite Forall_forall in Hall.
  destruct k as [|k]; cbn in Hk.
  - injection Hk as ->. rewrite filter_cons_False by lia.
    by rewrite filter_below_none.
  - assert (a < y) by (apply Hall; by eapply list_elem_of_lookup_2).
    rewrite filter_cons_True by done. cbn. f_equal. by apply IH.
Qed.

Lemma year_mapping_loop_notin (years : list Z) (i : Z) (m : gmap Z Z) (y : Z) :
  y ∉ years -> year_mapping_loop i years m !! y = m !! y.
Proof.
  revert i m. induction years as [|a years IH]; intros i m Hy; [done|].
  apply not_elem_of_cons in Hy as [Hne Hy].
  cbn. rewrite IH by done.
  by apply lookup_insert_ne.
Qed.

Lemma year_mapping_loop_lookup (years : list Z) (i : Z) (m : gmap Z Z)
      (k : nat) (y : Z) :
  NoDup years -> years !! k = Some y ->
  year_mapping_loop i years m !! y = Some (2019 + (i + Z.of_nat k) mod 5).
Proof.
  revert i m k. induction years as [|a years IH]; intros i m k Hnd Hk; [done|].
  apply NoDup_cons in Hnd as [Hnotin Hnd].
  destruct k as [|k]; cbn in Hk |- *.
  - injection Hk as ->. rewrite year_mapping_loop_notin by done.
    rewrite lookup_insert_eq. unfold min_year, max_year.
    do 2 f_equal. f_equal. lia.
  - rewrite (IH _ _ k) by done. do 2 f_equal. f_equal. lia.
Qed.

(** The dict built by lines 52-55 sends every year of the column to
    2019 plus its rank modulo 5. *)
Lemma year_mapping_rank (dates : list Timestamp) (d : Timestamp) :
  d ∈ dates ->
  year_mapping dates !! year d
  = Some (2019 + rank (year d) (year <$> dates) mod 5).
Proof.
  intros Hd. unfold year_mapping, rank.
  set (ys := unique (year <$> dates)).
  assert (Hin : year d ∈ sorted ys).
  { rewrite sorted_Permutation. apply elem_of_unique. by apply list_elem_of_fmap_2. }
  apply list_elem_of_lookup in Hin as [k Hk].
  assert (Hinc : StronglySorted Z.lt (sorted ys))
    by apply sorted_increasing, NoDup_unique.
  rewrite (year_mapping_loop_lookup _ _ _ k) ; [| |done].
  - rewrite <- (increasing_position _ _ _ Hinc Hk).
    rewrite (sorted_Permutation ys). done.
  - rewrite sorted_Permutation. apply NoDup_unique.
Qed.

End YearRemapFacts.

Section RemapDate.

Lemma monthrange_not_february (y y' m : Z) :
  m <> 2 -> monthrange y m = monthrange y' m.
Proof.
  intros Hm. unfold monthrange.
  destruct (Z.eqb_spec m 2) as [?|_]; [done|]. by cbn.
Qed.

Lemma monthrange_february (y : Z) :
  monthrange y 2 = if isleap y then 29 else 28.
Proof. unfold monthrange. cbn. by destruct (isleap y). Qed.


Lemma remap_date_valid (ym : gmap Z Z) (d : Timestamp) (new_year : Z) :
  valid_date d -> ym !! year d = Some new_year ->
  exists d', remap_date ym d = Return d' /\ remapped new_year d d'.
Proof.
  intros [Hm Hd] Hym. unfold remap_date. rewrite Hym.
  destruct ((month d =? 2) && (day d =? 29) && negb (isleap new_year)) eqn:Hfeb.
  - pose proof Hfeb as Hfeb'.
    apply andb_prop in Hfeb' as [Hfeb' Hleap]; apply andb_prop in Hfeb' as [Hmo Hda].
    apply Z.eqb_eq in Hmo. apply negb_true_iff in Hleap.
    unfold Timestamp_new, valid_dateb. rewrite monthrange_february, Hleap. cbn.
    eexists; split; [reflexivity|].
    unfold remapped; cbn. rewrite Hfeb. by rewrite Hmo.
  - assert (Hv : valid_dateb new_year (month d) (day d) = true).
    { unfold valid_dateb.
      repeat (apply andb_true_intro; split); try (apply Z.leb_le; lia).
      apply Z.leb_le.
      destruct (Z.eqb_spec (month d) 2) as [Hmo|Hmo].
      - rewrite Hmo in Hd |- *. rewrite monthrange_february in Hd |- *.
        destruct (Z.eqb_spec (day d) 29) as [Hda|Hda].
        + cbn in Hfeb. apply negb_false_iff in Hfeb. rewrite Hfeb. lia.
        + destruct (isleap (year d)), (isleap new_year); lia.
      - rewrite (monthrange_not_february new_year (year d)) by done. lia. }
    unfold replace_year, Timestamp_new. rewrite Hv.
    eexists; split; [reflexivity|]. unfold remapped; cbn. by rewrite Hfeb.
Qed.

End RemapDate.



(** ** Frames *)

Section FrameFacts.

Lemma obind_inv {A B} (m : outcome A) (f : A -> outcome B) (b : B) :
  m ≫= f = Return b -> exists a, m = Return a /\ f a = Return b.
Proof. destruct m as [a|e]; [|done]. intros H. by exists a. Qed.

Lemma get_set_column_eq (df : DataFrame) (name : string) (values : list cell) :
  get_column (set_column name values df) name = Return values.
Proof.
  induction df as [|[n c] df IH]; cbn.
  - by rewrite String.eqb_refl.
  - destruct (String.eqb n name) eqn:E; cbn; rewrite E; [done|apply IH].
Qed.

Lemma get_set_column_ne (df : DataFrame) (name name' : string) (values : list cell) :
  name <> name' ->
  get_column (set_column name values df) name' = get_column df name'.
Proof.
  intros Hne. induction df as [|[n c] df IH]; cbn.
  - by apply String.eqb_neq in Hne as ->.
  - destruct (String.eqb n name) eqn:E; cbn.
    + apply String.eqb_eq in E as ->. by apply String.eqb_neq in Hne as ->.
    + by rewrite IH.
Qed.

Lemma Forall2_VDate (col : list cell) (ts : list Timestamp) :
  Forall2 (fun c t => c = VDate t) col ts -> col = VDate <$> ts.
Proof. induction 1 as [|c t col ts -> _ ->]; by cbn. Qed.

Lemma fmap_VDate_inj (ts ts' : list Timestamp) :
  VDate <$> ts = VDate <$> ts' -> ts = ts'.
Proof.
  revert ts'. induction ts as [|t ts IH]; intros [|t' ts']; cbn; try done.
  intros [= -> H]. f_equal. by apply IH.
Qed.


Lemma dt_inv (col : list cell) (ts : list Timestamp) :
  dt col = Return ts -> col = VDate <$> ts /\ ts <> [].
Proof.
  unfold dt. destruct col as [|c col]; [done|]. intros H.
  apply omapM_inv in H. split.
  - apply Forall2_VDate. eapply Forall2_impl; [exact H|].
    cbn. intros [| |t'|] t; congruence.
  - intros ->. by apply Forall2_nil_inv_r in H.
Qed.

Lemma get_column_missing (df : DataFrame) (name : string) :
  name ∉ columns df -> get_column df name = Raise (KeyError name).
Proof.
  induction df as [|[n c] df IH]; [done|]. cbn.
  intros [Hne Hnot]%not_elem_of_cons.
  apply not_eq_sym, String.eqb_neq in Hne as ->. by apply IH.
Qed.


Lemma renamed_other (n : string) :
  n ∉ ["AcceptedCmp1"; "AcceptedCmp2"; "AcceptedCmp3"; "AcceptedCmp4"] ->
  renamed n = n.
Proof.
  rewrite !not_elem_of_cons. intros (H1 & H2 & H3 & H4 & _).
  unfold renamed, campaign_mapping.
  by rewrite !lookup_insert_ne, lookup_empty.
Qed.

(** The rename keeps a column that is named neither like a raw campaign
    indicator nor like a campaign. *)
Lemma get_column_rename (df : DataFrame) (name : string) :
  name ∉ ["AcceptedCmp1"; "AcceptedCmp2"; "AcceptedCmp3"; "AcceptedCmp4"] ->
  name ∉ COLORS_keys ->
  get_column (rename campaign_mapping df) name = get_column df name.
Proof.
  intros Hraw Hnew. induction df as [|[n c] df IH]; [done|].
  change (rename campaign_mapping ((n, c) :: df))
    with ((renamed n, c) :: rename campaign_mapping df).
  cbn [get_column]. rewrite IH.
  destruct (decide (n ∈ ["AcceptedCmp1"; "AcceptedCmp2"; "AcceptedCmp3"; "AcceptedCmp4"]))
    as [Hin|Hout].
  - assert (Hk : renamed n ∈ COLORS_keys).
    { rewrite !elem_of_cons, elem_of_nil in Hin.
      destruct Hin as [->|[->|[->|[->|[]]]]];
        apply list_elem_of_In; vm_compute; intuition. }
    assert (String.eqb (renamed n) name = false) as ->
      by (apply String.eqb_neq; intros E; by rewrite E in Hk).
    assert (String.eqb n name = false) as ->
      by (apply String.eqb_neq; intros E; by rewrite E in Hin).
    done.
  - by rewrite renamed_other.
Qed.

End FrameFacts.



(** ** load_data *)

Ltac bind_inv H :=
  let x := fresh "x" in
  let Hx := fresh "Hx" in
  apply obind_inv in H as (x & Hx & H).

Section LoadDataFacts.

Variable pd_to_datetime : cell -> option Timestamp.

Lemma map_region_mod (z : Z) :
  (z mod 4 = 0 /\ map_region (VInt (z mod 4)) = VStr "North") \/
  (z mod 4 = 1 /\ map_region (VInt (z mod 4)) = VStr "South") \/
  (z mod 4 = 2 /\ map_region (VInt (z mod 4)) = VStr "East") \/
  (z mod 4 = 3 /\ map_region (VInt (z mod 4)) = VStr "West").
Proof.
  pose proof (Z.mod_pos_bound z 4 ltac:(lia)) as Hb.
  assert (z mod 4 = 0 \/ z mod 4 = 1 \/ z mod 4 = 2 \/ z mod 4 = 3)
    as [E|[E|[E|E]]] by lia; rewrite E; auto 10.
Qed.


Lemma loop_dates_inv (col : list cell) (ts : list Timestamp) :
  loop_dates col = Return ts -> col = VDate <$> ts.
Proof.
  intros H. apply omapM_inv in H. apply Forall2_VDate.
  eapply Forall2_impl; [exact H|]. cbn. intros [| |t'|] t; congruence.
Qed.

(** The parsed column has no NaT only if the column read had no missing
    entry and the parser accepted every entry. *)
Lemma to_datetime_inv (col : list cell) (parsed : list Timestamp) :
  to_datetime pd_to_datetime col = Return (VDate <$> parsed) ->
  Forall2 (fun c t => c <> VNaN /\ pd_to_datetime c = Some t) col parsed.
Proof.
  intros H. apply omapM_inv in H. apply Forall2_fmap_r in H.
  eapply Forall2_impl; [exact H|]. cbn. intros c t Hc.
  destruct c as [z|s|t'|]; [| | |discriminate];
    (split; [discriminate|]);
    match type of Hc with
    | context [pd_to_datetime ?c] =>
        destruct (pd_to_datetime c) as [t0|]; [|discriminate]
    end; congruence.
Qed.


Lemma to_datetime_valid (col : list cell) (parsed : list Timestamp) :
  (forall c t, pd_to_datetime c = Some t -> valid_date t) ->
  to_datetime pd_to_datetime col = Return (VDate <$> parsed) ->
  Forall valid_date parsed.
Proof.
  intros Hpd H. apply to_datetime_inv in H.
  induction H as [|c t col parsed [_ Hc] _ IH]; constructor; [|done].
  by eapply Hpd.
Qed.

Lemma new_dates_nonempty (dates nd : list Timestamp) :
  new_dates dates = Return nd -> dates <> [] <-> nd <> [].
Proof.
  intros H. apply omapM_inv, Forall2_length in H.
  destruct dates, nd; cbn in H; try done; lia.
Qed.

(** The frame the existing-file branch builds, written out. *)
Lemma prepare_inv (df df' : DataFrame) :
  prepare pd_to_datetime df = Return df' ->
  exists col parsed nd ids rem,
    get_column (rename campaign_mapping df) "Dt_Customer" = Return col /\
    to_datetime pd_to_datetime col = Return (VDate <$> parsed) /\
    parsed <> [] /\
    new_dates parsed = Return nd /\
    get_column (rename campaign_mapping df) "ID" = Return ids /\
    omapM (fun c => cell_mod c 4) ids = Return rem /\
    df' = set_column "Region" (map_region <$> rem)
            (set_column "Month_Name" (month_name <$> nd)
               (set_column "Month" ((fun t => VInt (month t)) <$> nd)
                  (set_column "Year" ((fun t => VInt (year t)) <$> nd)
                     (set_column "Dt_Customer" (VDate <$> nd)
                        (set_column "Dt_Customer" (VDate <$> parsed)
                           (rename campaign_mapping df)))))).
Proof.
  unfold prepare. intros H.
  apply obind_inv in H as (col & Hcol & H).
  apply obind_inv in H as (cells & Hcells & H).
  rewrite get_set_column_eq in H. cbn [mbind outcome_bind obind] in H.
  apply obind_inv in H as (parsed & Hparsed & H).
  apply loop_dates_inv in Hparsed as ->.
  apply obind_inv in H as (nd & Hnd & H).
  rewrite get_set_column_eq in H. cbn [mbind outcome_bind obind] in H.
  apply obind_inv in H as (ts & Hts & H).
  apply dt_inv in Hts as [Heq Hne]. apply fmap_VDate_inj in Heq as <-.
  rewrite !get_set_column_ne in H by done.
  apply obind_inv in H as (ids & Hids & H).
  apply obind_inv in H as (rem & Hrem & H). injection H as <-.
  exists col, parsed, nd, ids, rem. split_and!; try done.
  by apply (new_dates_nonempty _ _ Hnd).
Qed.


Lemma get_column_rename_ID (df : DataFrame) :
  get_column (rename campaign_mapping df) "ID" = get_column df "ID".
Proof.
  apply get_column_rename; unfold COLORS_keys;
    rewrite !not_elem_of_cons, elem_of_nil; intuition discriminate.
Qed.

(** The frame returned by the existing-file branch: its ID column is the
    one of the file, and its Region column is computed from it entry by
    entry. *)
Lemma prepare_region (df df' : DataFrame) :
  prepare pd_to_datetime df = Return df' ->
  exists ids rem,
    get_column df "ID" = Return ids /\
    get_column df' "ID" = Return ids /\
    omapM (fun c => cell_mod c 4) ids = Return rem /\
    get_column df' "Region" = Return (map_region <$> rem).
Proof.
  intros H.
  apply prepare_inv in H as (col & parsed & nd & ids & rem & _ & _ & _ & _ & Hid & Hrem & ->).
  exists ids, rem. rewrite get_set_column_eq.
  rewrite !get_set_column_ne by done.
  rewrite get_column_rename_ID in Hid |- *. done.
Qed.


End LoadDataFacts.

Lemma load_data_frame (pd_to_datetime : cell -> option Timestamp)
      (file : option DataFrame) (log : list event) (df' : DataFrame) :
  load_data pd_to_datetime file = (log, Return (Some df')) ->
  exists df, file = Some df /\ prepare pd_to_datetime df = Return df'.
Proof.
  unfold load_data. destruct file as [df|].
  - destruct (prepare pd_to_datetime df) as [d|e] eqn:Hprep;
      cbv [mbind ui_mbind ui_bind lift mret ui_ret app]; [|done].
    intros [= _ <-]. by exists df.
  - cbv [mbind ui_mbind ui_bind emit mret ui_ret app]. done.
Qed.

(** C5, as the claim states it, fails: a customer whose ID is missing
    gets a missing Region, which is none of the four names. *)
Lemma C5_missing_id_no_region :
  let parse := fun c => match c with VDate t => Some t | _ => None end in
  let file := Some [("ID", [VNaN; VInt 3]);
                    ("Dt_Customer", VDate <$> [mkTimestamp 2012 9 4 0 0 0;
                                               mkTimestamp 2014 3 8 0 0 0])] in
  exists df',
    load_data parse file = ([], Return (Some df')) /\
    get_column df' "ID" = Return [VNaN; VInt 3] /\
    get_column df' "Region" = Return [VNaN; VStr "West"] /\
    ~ Forall named_region [VNaN; VStr "West"].
Proof.
  intros parse file.
  destruct (load_data parse file) as [log [[df'|]|e]] eqn:Hload;
    vm_compute in Hload; try discriminate.
  injection Hload as <- <-.
  eexists. split; [reflexivity|]. split; [reflexivity|]. split; [reflexivity|].
  intros H. apply Forall_cons_1 in H as [[H|[H|[H|H]]] _]; discriminate.
Qed.

(** C5, amended. In the frame load_data returns, the Region of a row is
    computed from the ID of that row alone: an integer ID congruent to
    0, 1, 2, 3 modulo 4 gets North, South, East, West respectively, so
    the Region of such a row is one of these four names; a row whose ID
    is missing has a missing Region. *)
Theorem C5_region_by_id (pd_to_datetime : cell -> option Timestamp)
        (file : option DataFrame) (log : list event) (df' : DataFrame) :
  load_data pd_to_datetime file = (log, Return (Some df')) ->
  exists ids regions,
    get_column df' "ID" = Return ids /\
    get_column df' "Region" = Return regions /\
    Forall2 (fun id region =>
               (forall z, id = VInt z ->
                  named_region region /\
                  ((z mod 4 = 0 /\ region = VStr "North") \/
                   (z mod 4 = 1 /\ region = VStr "South") \/
                   (z mod 4 = 2 /\ region = VStr "East") \/
                   (z mod 4 = 3 /\ region = VStr "West"))) /\
               (id = VNaN -> region = VNaN /\ ~ named_region region))
            ids regions.
Proof.
  intros Hload. apply load_data_frame in Hload as (df & -> & Hprep).
  apply prepare_region in Hprep as (ids & rem & _ & Hids & Hrem & Hreg).
  exists ids, (map_region <$> rem). do 2 (split; [done|]).
  apply omapM_inv in Hrem. apply Forall2_fmap_r.
  eapply Forall2_impl; [exact Hrem|]. cbn.
  intros id r Hmod. split.
  - intros z ->. cbn in Hmod. injection Hmod as <-.
    pose proof (map_region_mod z) as H. split; [|exact H].
    unfold named_region. destruct H as [[_ ->]|[[_ ->]|[[_ ->]|[_ ->]]]]; auto.
  - intros ->. cbn in Hmod. injection Hmod as <-. split; [done|].
    intros [H|[H|[H|H]]]; discriminate.
Qed.

(** The amended claim on a file of five customers, one without ID. *)
Lemma C5_region_by_id_witness :
  let parse := fun c => match c with VDate t => Some t | _ => None end in
  let file := Some [("ID", [VInt 5524; VInt 2174; VNaN; VInt 6182; VInt (-3)]);
                    ("Dt_Customer",
                     VDate <$> [mkTimestamp 2012 9 4 0 0 0; mkTimestamp 2014 3 8 0 0 0;
                                mkTimestamp 2013 8 21 0 0 0; mkTimestamp 2014 2 10 0 0 0;
                                mkTimestamp 2012 2 29 0 0 0])] in
  exists df' ids regions,
    load_data parse file = ([], Return (Some df')) /\
    get_column df' "ID" = Return ids /\
    get_column df' "Region" = Return regions /\
    regions = [VStr "North"; VStr "East"; VNaN; VStr "East"; VStr "South"] /\
    Forall2 (fun id region =>
               (forall z, id = VInt z ->
                  named_region region /\
                  ((z mod 4 = 0 /\ region = VStr "North") \/
                   (z mod 4 = 1 /\ region = VStr "South") \/
                   (z mod 4 = 2 /\ region = VStr "East") \/
                   (z mod 4 = 3 /\ region = VStr "West"))) /\
               (id = VNaN -> region = VNaN /\ ~ named_region region))
            ids regions.
Proof.
  intros parse file.
  destruct (load_data parse file) as [log [[df'|]|e]] eqn:Hload;
    vm_compute in Hload; try discriminate.
  injection Hload as <- <-.
  eexists.
  destruct (C5_region_by_id parse file [] _ eq_refl) as (ids & regions & Hids & Hreg & Hall).
  exists ids, regions.
  split; [reflexivity|]. split; [exact Hids|]. split; [exact Hreg|].
  split; [|exact Hall].
  vm_compute in Hreg. by injection Hreg as <-.
Defined.

Section LoadDataOutcome.

Variable pd_to_datetime : cell -> option Timestamp.

Lemma omapM_total {A B} (f : A -> outcome B) (l : list A) :
  (forall a, a ∈ l -> exists b, f a = Return b) -> exists bs, omapM f l = Return bs.
Proof.
  induction l as [|a l IH]; intros Hf; [by exists []|].
  destruct (Hf a) as [b Hb]; [left|].
  destruct IH as [bs Hbs]; [intros x Hx; apply Hf; by right|].
  exists (b :: bs). cbn. rewrite Hb. cbn. by rewrite Hbs.
Qed.

Lemma new_dates_total (dates : list Timestamp) :
  Forall valid_date dates -> exists nd, new_dates dates = Return nd.
Proof.
  intros Hvalid. apply omapM_total. intros d Hd.
  destruct (remap_date_valid (year_mapping dates) d
              (2019 + rank (year d) (year <$> dates) mod 5)) as (d' & Hd' & _).
  - by eapply Forall_forall in Hvalid.
  - by apply year_mapping_rank.
  - by exists d'.
Qed.



End LoadDataOutcome.




(** ** Filtering *)

Section Filtering.

Lemma mask_rows_nil_r {A} (mask : list bool) : mask_rows mask (@nil A) = [].
Proof. by destruct mask as [|[] ?]. Qed.

Lemma mask_rows_fmap {A B} (f : A -> B) (mask : list bool) (col : list A) :
  mask_rows mask (f <$> col) = f <$> mask_rows mask col.
Proof.
  revert col. induction mask as [|b mask IH]; intros [|x col]; try done.
  cbn. destruct b; cbn; by rewrite IH.
Qed.

(** Two successive selections are one selection by the conjunction. *)
Lemma mask_rows_fuse {A} (m1 m2 : list bool) (col : list A) :
  mask_rows (mask_rows m1 m2) (mask_rows m1 col)
  = mask_rows (zip_with andb m1 m2) col.
Proof.
  revert m2 col. induction m1 as [|b1 m1 IH]; intros m2 col; [done|].
  destruct m2 as [|b2 m2], col as [|x col].
  - done.
  - done.
  - cbn [mask_rows]. by rewrite mask_rows_nil_r.
  - destruct b1, b2; cbn; by rewrite IH.
Qed.

Lemma select_rows_fuse (m1 m2 : list bool) (df : DataFrame) :
  select_rows (mask_rows m1 m2) (select_rows m1 df)
  = select_rows (zip_with andb m1 m2) df.
Proof.
  unfold select_rows. rewrite <- list_fmap_compose.
  apply list_fmap_ext. intros _ [n c] _. cbn. by rewrite mask_rows_fuse.
Qed.

Lemma get_column_select_rows (mask : list bool) (df : DataFrame)
      (name : string) (col : list cell) :
  get_column df name = Return col ->
  get_column (select_rows mask df) name = Return (mask_rows mask col).
Proof.
  induction df as [|[n c] df IH]; [done|]. cbn.
  destruct (String.eqb n name); [by intros [= ->]|done].
Qed.

Lemma get_column_columns (df : DataFrame) (name : string) (col : list cell) :
  get_column df name = Return col -> name ∈ columns df.
Proof.
  induction df as [|[n c] df IH]; [done|]. cbn.
  destruct (String.eqb_spec n name) as [->|_]; [left|right; auto].
Qed.

Lemma zip_with_masks {A B} (f : A -> bool) (g : B -> bool) (l : list A) (k : list B) :
  zip_with andb (f <$> l) (g <$> k) = zip_with (fun a b => f a && g b) l k.
Proof.
  revert k. induction l as [|a l IH]; intros [|b k]; try done.
  cbn. by rewrite IH.
Qed.

End Filtering.

(** C6. With a nonempty education selection, [filtered_df] holds exactly
    the rows of the loaded frame whose Education is selected and, when a
    specific region is chosen, whose Region is that region; under
    'All Regions' only the education condition selects. *)
Theorem C6_filtered_rows (df : DataFrame) (selected_education : list cell)
        (selected_region : string) (ed rg : list cell) :
  selected_education <> [] ->
  get_column df "Education" = Return ed ->
  get_column df "Region" = Return rg ->
  filtered df selected_education selected_region
  = Return (select_rows
              (if String.eqb selected_region "All Regions"
               then (fun e => bool_decide (e ∈ selected_education)) <$> ed
               else zip_with (fun e r => bool_decide (e ∈ selected_education)
                                         && bool_decide (r = VStr selected_region))
                             ed rg)
              df).
Proof.
  intros Hsel Hed Hrg. unfold filtered, education_filter, region_filter.
  destruct selected_education as [|s sel]; [done|].
  rewrite Hed. cbn [mbind outcome_bind obind].
  rewrite (bool_decide_eq_true_2 _ (get_column_columns _ _ _ Hrg)).
  destruct (String.eqb selected_region "All Regions"); cbn [andb negb]; [done|].
  rewrite (get_column_select_rows _ _ _ _ Hrg). cbn [mbind outcome_bind obind].
  unfold eq_mask. rewrite <- mask_rows_fmap, select_rows_fuse.
  unfold isin. by rewrite zip_with_masks.
Qed.

(** The claim on four customers, with a region chosen and with all regions. *)
Lemma C6_filtered_rows_witness :
  let df := [("Education", [VStr "PhD"; VStr "Master"; VStr "PhD"; VStr "Basic"]);
             ("Region", [VStr "North"; VStr "North"; VStr "South"; VStr "North"]);
             ("Response", [VInt 1; VInt 0; VInt 0; VInt 1])] in
  filtered df [VStr "PhD"; VStr "Basic"] "North"
  = Return [("Education", [VStr "PhD"; VStr "Basic"]);
            ("Region", [VStr "North"; VStr "North"]);
            ("Response", [VInt 1; VInt 1])] /\
  filtered df [VStr "PhD"; VStr "Basic"] "All Regions"
  = Return [("Education", [VStr "PhD"; VStr "PhD"; VStr "Basic"]);
            ("Region", [VStr "North"; VStr "South"; VStr "North"]);
            ("Response", [VInt 1; VInt 0; VInt 1])].
Proof.
  intros df. split.
  - rewrite (C6_filtered_rows df [VStr "PhD"; VStr "Basic"] "North"
               [VStr "PhD"; VStr "Master"; VStr "PhD"; VStr "Basic"]
               [VStr "North"; VStr "North"; VStr "South"; VStr "North"]);
      [reflexivity|discriminate|reflexivity|reflexivity].
  - rewrite (C6_filtered_rows df [VStr "PhD"; VStr "Basic"] "All Regions"
               [VStr "PhD"; VStr "Master"; VStr "PhD"; VStr "Basic"]
               [VStr "North"; VStr "North"; VStr "South"; VStr "North"]);
      [reflexivity|discriminate|reflexivity|reflexivity].
Defined.

(** C9, as the claim states it, fails: with nothing selected in the
    education control and the region 'North' chosen, the customer of the
    South is dropped from [filtered_df]. *)
Lemma C9_region_still_filters :
  let df := [("Education", [VStr "PhD"; VStr "Master"]);
             ("Region", [VStr "North"; VStr "South"])] in
  filtered df [] "North"
  = Return [("Education", [VStr "PhD"]); ("Region", [VStr "North"])] /\
  filtered df [] "North" <> Return df.
Proof. split; [reflexivity|discriminate]. Qed.

(** C9, amended. With an empty education selection no education filter is
    applied: the education step hands on the whole frame (and not the
    empty selection a membership test in the empty set would give), so
    [filtered_df] is the whole loaded frame under 'All Regions', and the
    rows of the chosen region otherwise. *)
Theorem C9_empty_selection (df : DataFrame) (selected_region : string)
        (ed rg : list cell) :
  get_column df "Education" = Return ed ->
  get_column df "Region" = Return rg ->
  education_filter df [] = Return df /\
  select_rows (isin ed []) df = (fun nc => (nc.1, [])) <$> df /\
  filtered df [] "All Regions" = Return df /\
  (selected_region <> "All Regions" ->
   filtered df [] selected_region
   = Return (select_rows ((fun r => bool_decide (r = VStr selected_region)) <$> rg) df)).
Proof.
  intros Hed Hrg. split; [done|]. split; [|split].
  - unfold select_rows, isin. apply list_fmap_ext. intros _ [n c] _. cbn. f_equal.
    clear. revert c. induction ed as [|e ed' IH]; intros [|x c]; try done.
    cbn. rewrite bool_decide_eq_false_2 by apply not_elem_of_nil. apply IH.
  - unfold filtered, education_filter, region_filter. cbn [mbind outcome_bind obind].
    by rewrite andb_false_r.
  - intros Hne. unfold filtered, education_filter, region_filter.
    cbn [mbind outcome_bind obind].
    rewrite (bool_decide_eq_true_2 _ (get_column_columns _ _ _ Hrg)).
    apply String.eqb_neq in Hne as ->. cbn [andb negb].
    by rewrite Hrg.
Qed.

(** The amended claim on two customers. *)
Lemma C9_empty_selection_witness :
  let df := [("Education", [VStr "PhD"; VStr "Master"]);
             ("Region", [VStr "North"; VStr "South"])] in
  filtered df [] "All Regions" = Return df /\
  filtered df [] "South"
  = Return [("Education", [VStr "Master"]); ("Region", [VStr "South"])].
Proof.
  intros df.
  destruct (C9_empty_selection df "South" [VStr "PhD"; VStr "Master"]
              [VStr "North"; VStr "South"] eq_refl eq_refl) as (_ & _ & Hall & Hreg).
  split; [exact Hall|]. rewrite Hreg; [reflexivity|discriminate].
Defined.

(** ** The response-rate KPI *)

Section ResponseRate.


Lemma binary_numeric_values (col : list cell) :
  Forall (fun c => c = VInt 0 \/ c = VInt 1) col ->
  exists qs, numeric_values col = Return qs /\
             length qs = length col /\
             (Qsum qs == inject_Z (Z.of_nat (ones col)))%Q.
Proof.
  induction 1 as [|c col Hc _ (qs & Hqs & Hlen & Hsum)].
  - exists []. by repeat split.
  - destruct Hc as [-> | ->]; cbn [numeric_values]; rewrite Hqs;
      cbn [mbind outcome_bind obind]; eexists; (split; [reflexivity|]);
      (split; [cbn; by rewrite Hlen|]); unfold ones in *.
    + rewrite filter_cons_False by discriminate.
      cbn [Qsum foldr]. fold (Qsum qs). rewrite Hsum. unfold inject_Z. ring.
    + rewrite filter_cons_True by done. cbn [length Qsum foldr]. fold (Qsum qs).
      rewrite Hsum, Nat2Z.inj_succ, <- Z.add_1_l, inject_Z_plus. reflexivity.
Qed.

End ResponseRate.

(** C4. On a nonempty filtered frame whose Response column holds only 0
    and 1, the Overall Response Rate is 100 times the number of rows with
    Response 1 divided by the number of rows. *)
Theorem C4_overall_response_rate (filtered_df : DataFrame) (col : list cell) :
  get_column filtered_df "Response" = Return col ->
  col <> [] ->
  Forall (fun c => c = VInt 0 \/ c = VInt 1) col ->
  exists q,
    response_rate filtered_df = Return (Some q) /\
    (q == 100 * inject_Z (Z.of_nat (ones col)) / inject_Z (Z.of_nat (length col)))%Q.
Proof.
  intros Hcol Hne Hbin.
  destruct (binary_numeric_values col Hbin) as (qs & Hqs & Hlen & Hsum).
  unfold response_rate, Series_mean. rewrite Hcol. cbn [mbind outcome_bind obind].
  rewrite Hqs. cbn [mbind outcome_bind obind].
  destruct qs as [|q0 qs]; [by destruct col|].
  eexists. split; [reflexivity|].
  rewrite Hsum, Hlen. field.
  destruct col as [|c col]; [done|]. cbn [length].
  rewrite Nat2Z.inj_succ. unfold inject_Z, Qeq. cbn. lia.
Qed.

(** The claim on four customers, one of whom responded: 25 percent. *)
Lemma C4_overall_response_rate_witness :
  exists q,
    response_rate [("Response", [VInt 0; VInt 1; VInt 0; VInt 0])] = Return (Some q) /\
    (q == 25)%Q.
Proof.
  destruct (C4_overall_response_rate
              [("Response", [VInt 0; VInt 1; VInt 0; VInt 0])]
              [VInt 0; VInt 1; VInt 0; VInt 0] eq_refl) as (q & Hq & Heq).
  - discriminate.
  - repeat (apply List.Forall_cons; [auto|]). apply List.Forall_nil.
  - exists q. split; [exact Hq|]. rewrite Heq. reflexivity.
Defined.

(** ** Age groups *)

Section AgeGroups.


Lemma cut_cases (a : Z) :
  cut age_bins age_labels a
  = if (20 <=? a) && (a <? 35) then Some "20-34"
    else if (35 <=? a) && (a <? 50) then Some "35-49"
    else if (50 <=? a) && (a <? 65) then Some "50-64"
    else if (65 <=? a) && (a <? 90) then Some "65+"
    else None.
Proof. reflexivity. Qed.

Lemma group_in_bin (c : cell) :
  bool_decide (group_of c = VStr "20-34") = in_bin 20 35 c /\
  bool_decide (group_of c = VStr "35-49") = in_bin 35 50 c /\
  bool_decide (group_of c = VStr "50-64") = in_bin 50 65 c /\
  bool_decide (group_of c = VStr "65+") = in_bin 65 90 c.
Proof.
  destruct c as [a| | |]; cbn [group_of in_bin]; [|by repeat split..].
  rewrite cut_cases.
  destruct (Z.leb_spec 20 a), (Z.ltb_spec a 35), (Z.leb_spec 35 a),
    (Z.ltb_spec a 50), (Z.leb_spec 50 a), (Z.ltb_spec a 65),
    (Z.leb_spec 65 a), (Z.ltb_spec a 90); cbn [andb]; try lia;
    by repeat split.
Qed.

Lemma cut_column (ages : list cell) :
  Forall (fun c => c = VNaN \/ exists a, c = VInt a) ages ->
  omapM cut_cell ages = Return (group_of <$> ages).
Proof.
  intros Hnum. apply omapM_Return. intros c Hc.
  eapply Forall_forall in Hnum; [|exact Hc].
  by destruct Hnum as [->|[a ->]].
Qed.

Lemma group_mask (ages : list cell) :
  eq_mask (group_of <$> ages) (VStr "20-34") = in_bin 20 35 <$> ages /\
  eq_mask (group_of <$> ages) (VStr "35-49") = in_bin 35 50 <$> ages /\
  eq_mask (group_of <$> ages) (VStr "50-64") = in_bin 50 65 <$> ages /\
  eq_mask (group_of <$> ages) (VStr "65+") = in_bin 65 90 <$> ages.
Proof.
  unfold eq_mask. rewrite <- !list_fmap_compose.
  repeat split; apply list_fmap_ext; intros _ c _; cbn; apply group_in_bin.
Qed.

End AgeGroups.

(** C10. The age groups are the half-open bins [20,35), [35,50), [50,65)
    and [65,90): an age below 20 or from 90 up gets no group, '65+' is
    given to the ages 65 to 89 only, and each group's mean response is
    taken over exactly the rows whose age lies in its bin, so a row
    without a group enters no mean. *)
Theorem C10_age_bins (filtered_df : DataFrame) (ages resp : list cell) :
  get_column filtered_df "Age" = Return ages ->
  get_column filtered_df "Response" = Return resp ->
  Forall (fun c => c = VNaN \/ exists a, c = VInt a) ages ->
  (forall a, cut age_bins age_labels a = Some "20-34" <-> 20 <= a < 35) /\
  (forall a, cut age_bins age_labels a = Some "35-49" <-> 35 <= a < 50) /\
  (forall a, cut age_bins age_labels a = Some "50-64" <-> 50 <= a < 65) /\
  (forall a, cut age_bins age_labels a = Some "65+" <-> 65 <= a < 90) /\
  (forall a, cut age_bins age_labels a = None <-> a < 20 \/ 90 <= a) /\
  exists df',
    add_age_group filtered_df = Return df' /\
    get_column df' "Age_Group" = Return (group_of <$> ages) /\
    age_response df'
    = omapM (fun bin : string * (Z * Z) =>
               m ← Series_mean (mask_rows (in_bin bin.2.1 bin.2.2 <$> ages) resp);
               Return (bin.1, m))
            [("20-34", (20, 35)); ("35-49", (35, 50));
             ("50-64", (50, 65)); ("65+", (65, 90))].
Proof.
  intros Hage Hresp Hnum.
  assert (Hcut : forall a,
    (cut age_bins age_labels a = Some "20-34" <-> 20 <= a < 35) /\
    (cut age_bins age_labels a = Some "35-49" <-> 35 <= a < 50) /\
    (cut age_bins age_labels a = Some "50-64" <-> 50 <= a < 65) /\
    (cut age_bins age_labels a = Some "65+" <-> 65 <= a < 90) /\
    (cut age_bins age_labels a = None <-> a < 20 \/ 90 <= a)).
  { intros a. rewrite cut_cases.
    destruct (Z.leb_spec 20 a), (Z.ltb_spec a 35), (Z.leb_spec 35 a),
      (Z.ltb_spec a 50), (Z.leb_spec 50 a), (Z.ltb_spec a 65),
      (Z.leb_spec 65 a), (Z.ltb_spec a 90); cbn [andb]; try lia;
      repeat split; intros; try discriminate; try lia; try reflexivity. }
  do 5 (split; [intros a; apply Hcut|]).
  eexists. unfold add_age_group. rewrite Hage. cbn [mbind outcome_bind obind].
  rewrite (cut_column ages Hnum). cbn [mbind outcome_bind obind].
  split; [reflexivity|]. split; [apply get_set_column_eq|].
  unfold age_response. rewrite get_set_column_eq. cbn [mbind outcome_bind obind].
  rewrite get_set_column_ne by done. rewrite Hresp. cbn [mbind outcome_bind obind].
  destruct (group_mask ages) as (H1 & H2 & H3 & H4).
  unfold age_labels. cbn [omapM]. rewrite H1, H2, H3, H4. reflexivity.
Qed.

(** The claim on five customers aged 19, 20, 64, 89 and 90. *)
Lemma C10_age_bins_witness :
  let df := [("Age", [VInt 19; VInt 20; VInt 64; VInt 89; VInt 90]);
             ("Response", [VInt 1; VInt 0; VInt 1; VInt 1; VInt 1])] in
  exists df',
    add_age_group df = Return df' /\
    get_column df' "Age_Group"
    = Return [VNaN; VStr "20-34"; VStr "50-64"; VStr "65+"; VNaN] /\
    age_response df'
    = Return [("20-34", Some (0 / 1)%Q); ("35-49", None);
              ("50-64", Some (1 / 1)%Q); ("65+", Some (1 / 1)%Q)].
Proof.
  intros df.
  destruct (C10_age_bins df [VInt 19; VInt 20; VInt 64; VInt 89; VInt 90]
              [VInt 1; VInt 0; VInt 1; VInt 1; VInt 1] eq_refl eq_refl)
    as (_ & _ & _ & _ & _ & df' & Hdf' & Hgroup & Hresp).
  - repeat (apply List.Forall_cons; [right; eexists; reflexivity|]).
    apply List.Forall_nil.
  - exists df'. split; [exact Hdf'|]. split; [exact Hgroup|].
    rewrite Hresp. reflexivity.
Defined.

(** ** The synthetic rows of the trend table *)

Section TrendFacts.

Variable math_sin : Q -> Q.
Variable math_pi : Q.

Lemma py_min_spec (a b : Q) : (py_min a b <= a /\ py_min a b <= b)%Q.
Proof.
  unfold py_min. destruct (Qle_bool a b) eqn:E.
  - apply Qle_bool_iff in E. split; [apply Qle_refl|done].
  - split; [|apply Qle_refl].
    destruct (Qlt_le_dec b a) as [Hlt|Hle]; [by apply Qlt_le_weak|].
    apply Qle_bool_iff in Hle. congruence.
Qed.

(** Line 305 keeps the value inside the envelope when the envelope is
    not empty. *)
Lemma clamp_within (mn mx v : Q) :
  (mn <= mx)%Q -> (mn <= py_max mn (py_min v mx) <= mx)%Q.
Proof.
  intros Hle. unfold py_max.
  destruct (Qle_bool (py_min v mx) mn) eqn:E.
  - split; [apply Qle_refl|done].
  - split; [|apply py_min_spec].
    destruct (Qlt_le_dec mn (py_min v mx)) as [Hlt|Hle']; [by apply Qlt_le_weak|].
    apply Qle_bool_iff in Hle'. congruence.
Qed.

(** With an empty envelope it returns the lower bound, whatever the
    trend formula gave. *)
Lemma clamp_inverted (mn mx v : Q) :
  (mx < mn)%Q -> py_max mn (py_min v mx) = mn.
Proof.
  intros Hlt. unfold py_max.
  destruct (Qle_bool (py_min v mx) mn) eqn:E; [done|].
  assert (Hle : (py_min v mx <= mn)%Q).
  { eapply Qle_trans; [apply py_min_spec|by apply Qlt_le_weak]. }
  apply Qle_bool_iff in Hle. congruence.
Qed.

Lemma generated_within (r : rates) (campaign : string) (year : Z) (mn mx v : Q) :
  min_rates r !! campaign = Some mn ->
  max_rates r !! campaign = Some mx ->
  (mn <= mx)%Q ->
  generated math_sin math_pi r campaign year = Some v ->
  (mn <= v <= mx)%Q.
Proof.
  intros Hmn Hmx Hle. unfold generated. rewrite Hmn, Hmx.
  destruct (avg_rates r !! campaign) as [base|]; [|done].
  cbn. intros [= <-]. by apply clamp_within.
Qed.

Lemma foldl_set_rate (g : string -> option Q) (l : list string)
      (m : gmap string Q) (c : string) :
  NoDup l ->
  foldl (fun row k => set_rate k (g k) row) m l !! c
  = if decide (c ∈ l)
    then match g c with Some v => Some v | None => m !! c end
    else m !! c.
Proof.
  revert m. induction l as [|k l IH]; intros m Hnd; [done|].
  apply NoDup_cons in Hnd as [Hk Hnd]. cbn [foldl]. rewrite IH by done.
  assert (Hother : c <> k -> set_rate k (g k) m !! c = m !! c).
  { intros Hne. unfold set_rate. destruct (g k); [|done].
    by apply lookup_insert_ne. }
  assert (Hsame : set_rate k (g k) m !! k
                  = match g k with Some v => Some v | None => m !! k end).
  { unfold set_rate. destruct (g k); [|done]. apply lookup_insert_eq. }
  destruct (decide (c = k)) as [->|Hne].
  - rewrite decide_False by done. rewrite decide_True by left. done.
  - rewrite Hother by done.
    destruct (decide (c ∈ l)) as [Hin|Hout].
    + rewrite decide_True by (by right). done.
    + rewrite decide_False; [done|].
      rewrite elem_of_cons. tauto.
Qed.

(** Each entry of a fabricated row is the clamped trend formula. *)
Lemma new_row_lookup (r : rates) (year : Z) (campaign : string) :
  campaign ∈ COLORS_keys ->
  values (new_row math_sin math_pi r year) !! campaign
  = generated math_sin math_pi r campaign year.
Proof.
  intros Hin. unfold new_row. cbn [values].
  rewrite (foldl_set_rate (fun k => generated math_sin math_pi r k year)).
  - rewrite decide_True by done. rewrite lookup_empty. by destruct generated.
  - unfold COLORS_keys. repeat (apply NoDup_cons; split;
      [rewrite ?not_elem_of_cons, ?elem_of_nil; intuition discriminate|]).
    apply NoDup_nil_2.
Qed.

Lemma foldl_append_rows (r : rates) (years : list Z) (yt : list trend_row) :
  foldl (fun yearly_trends year =>
           yearly_trends ++ [new_row math_sin math_pi r year]) yt years
  = yt ++ (new_row math_sin math_pi r <$> years).
Proof.
  revert yt. induction years as [|y years IH]; intros yt; cbn.
  - by rewrite app_nil_r.
  - by rewrite IH, <- app_assoc.
Qed.


Lemma fill_missing_added (yt : list trend_row) :
  fill_missing math_sin math_pi yt = yt ++ added_rows math_sin math_pi yt.
Proof.
  unfold fill_missing, added_rows.
  destruct (length (existing_years yt) <? 6)%nat.
  - apply foldl_append_rows.
  - by rewrite app_nil_r.
Qed.

End TrendFacts.

(** ** The fabricated values as functions of the derived rates *)

Lemma py_min_Qeq (a a' b b' : Q) :
  (a == a')%Q -> (b == b')%Q -> (py_min a b == py_min a' b')%Q.
Proof.
  intros Ha Hb. unfold py_min. rewrite <- Ha, <- Hb at 1.
  by destruct (Qle_bool a b).
Qed.

Lemma py_max_Qeq (a a' b b' : Q) :
  (a == a')%Q -> (b == b')%Q -> (py_max a b == py_max a' b')%Q.
Proof.
  intros Ha Hb. unfold py_max. rewrite <- Ha, <- Hb at 1.
  by destruct (Qle_bool b a).
Qed.

(** The trend formula reads its three rates as numbers: equal rates give
    equal trends, whatever fractions hold them. *)
Lemma trend_value_Qeq (math_sin : Q -> Q) (math_pi : Q) (campaign : string) (year : Z)
      (mn mn' base base' mx mx' : Q) :
  (mn == mn')%Q -> (base == base')%Q -> (mx == mx')%Q ->
  (trend_value math_sin math_pi campaign year mn base mx
   == trend_value math_sin math_pi campaign year mn' base' mx')%Q.
Proof.
  intros Hmn Hbase Hmx. unfold trend_value.
  repeat match goal with
         | |- context [if ?b then _ else _] => destruct b
         end; rewrite ?Hmn, ?Hbase, ?Hmx; reflexivity.
Qed.

(** The value of line 305 depends on the three dicts through the three
    entries of the campaign alone, and through the numbers they hold. *)
Lemma generated_same (math_sin : Q -> Q) (math_pi : Q) (r1 r2 : rates)
      (campaign : string) (year : Z) :
  same_rate (min_rates r1 !! campaign) (min_rates r2 !! campaign) ->
  same_rate (avg_rates r1 !! campaign) (avg_rates r2 !! campaign) ->
  same_rate (max_rates r1 !! campaign) (max_rates r2 !! campaign) ->
  same_rate (generated math_sin math_pi r1 campaign year)
            (generated math_sin math_pi r2 campaign year).
Proof.
  unfold same_rate, generated.
  intros [mn mn' Hmn|] [base base' Hbase|] [mx mx' Hmx|]; cbn; constructor.
  apply py_max_Qeq; [done|]. apply py_min_Qeq; [|done].
  by apply trend_value_Qeq.
Qed.

(** A row of the filled table whose year the table did not have is a
    fabricated one. *)
Lemma fill_missing_fabricated (math_sin : Q -> Q) (math_pi : Q)
      (yt : list trend_row) (row : trend_row) :
  row ∈ fill_missing math_sin math_pi yt -> Year row ∉ Year <$> yt ->
  Year row ∈ missing_years yt /\
  row = new_row math_sin math_pi (derive_rates yt) (Year row).
Proof.
  rewrite fill_missing_added. intros [Hin|Hin]%elem_of_app Hnot.
  - destruct Hnot. by apply list_elem_of_fmap_2.
  - unfold added_rows in Hin. destruct (_ <? _)%nat; [|by apply elem_of_nil in Hin].
    apply list_elem_of_fmap in Hin as (y & -> & Hy). by cbn.
Qed.

(** C3. A fabricated value is a function of the campaign name, the year
    and the campaign's three derived rates, and of nothing else: take
    any two trend tables, whatever their rows and observed years, in
    which the min, average and max rate of a campaign are the same
    numbers; for a year missing from both, the rows fabricated for that
    year hold the same value for the campaign, and this value is the
    clamped trend formula of line 305. *)
Theorem C3_fill_deterministic (math_sin : Q -> Q) (math_pi : Q)
        (yt1 yt2 : list trend_row) (row1 row2 : trend_row) (campaign : string) :
  campaign ∈ COLORS_keys ->
  same_rate (min_rates (derive_rates yt1) !! campaign)
            (min_rates (derive_rates yt2) !! campaign) ->
  same_rate (avg_rates (derive_rates yt1) !! campaign)
            (avg_rates (derive_rates yt2) !! campaign) ->
  same_rate (max_rates (derive_rates yt1) !! campaign)
            (max_rates (derive_rates yt2) !! campaign) ->
  row1 ∈ fill_missing math_sin math_pi yt1 -> Year row1 ∉ Year <$> yt1 ->
  row2 ∈ fill_missing math_sin math_pi yt2 -> Year row2 ∉ Year <$> yt2 ->
  Year row1 = Year row2 ->
  same_rate (values row1 !! campaign) (values row2 !! campaign) /\
  values row1 !! campaign
  = (base_value ← avg_rates (derive_rates yt1) !! campaign;
     mn ← min_rates (derive_rates yt1) !! campaign;
     mx ← max_rates (derive_rates yt1) !! campaign;
     Some (py_max mn
             (py_min (trend_value math_sin math_pi campaign (Year row1)
                                  mn base_value mx) mx))).
Proof.
  intros Hc Hmn Havg Hmx Hin1 Hnew1 Hin2 Hnew2 Hyear.
  apply fill_missing_fabricated in Hin1 as [_ Hrow1]; [|done].
  apply fill_missing_fabricated in Hin2 as [_ Hrow2]; [|done].
  assert (H1 : values row1 !! campaign
               = generated math_sin math_pi (derive_rates yt1) campaign (Year row1))
    by (rewrite Hrow1 at 1; by apply new_row_lookup).
  assert (H2 : values row2 !! campaign
               = generated math_sin math_pi (derive_rates yt2) campaign (Year row2))
    by (rewrite Hrow2 at 1; by apply new_row_lookup).
  rewrite H1, H2. split; [|reflexivity]. rewrite Hyear. by apply generated_same.
Qed.

(** The claim on two tables with different rows and different observed
    years, in which the spring campaign has the rates 1/8 and 1/4 held
    as different fractions: the rows fabricated for 2023 agree on it. *)
Lemma C3_fill_deterministic_witness :
  let math_sin := fun x : Q => (x - x * x * x / 6)%Q in
  let math_pi := (355 # 113)%Q in
  let spring := "Spring Wine Festival" in
  let yt1 := [mkRow 2019 (<[spring := 1 # 8]> (<["Summer Fruit Bundle" := 1 # 10]> ∅))%Q;
              mkRow 2020 (<[spring := 1 # 4]> (<["Summer Fruit Bundle" := 3 # 10]> ∅))%Q] in
  let yt2 := [mkRow 2021 (<[spring := 2 # 8]> (<["Autumn Meat Sampler" := 1 # 5]> ∅))%Q;
              mkRow 2022 (<[spring := 2 # 16]> ∅)%Q] in
  exists row1 row2,
    fill_missing math_sin math_pi yt1 !! 4%nat = Some row1 /\
    fill_missing math_sin math_pi yt2 !! 4%nat = Some row2 /\
    Year row1 = 2023 /\ Year row2 = 2023 /\
    same_rate (values row1 !! spring) (values row2 !! spring) /\
    same_rate (values row1 !! spring) (Some (37 # 160)%Q).
Proof.
  intros math_sin math_pi spring yt1 yt2.
  destruct (fill_missing math_sin math_pi yt1 !! 4%nat) as [row1|] eqn:E1;
    [|vm_compute in E1; discriminate].
  destruct (fill_missing math_sin math_pi yt2 !! 4%nat) as [row2|] eqn:E2;
    [|vm_compute in E2; discriminate].
  assert (Hy1 : Year row1 = 2023).
  { pose proof (f_equal (option_map Year) E1) as E. vm_compute in E. by injection E. }
  assert (Hy2 : Year row2 = 2023).
  { pose proof (f_equal (option_map Year) E2) as E. vm_compute in E. by injection E. }
  assert (Hv1 : same_rate (values row1 !! spring) (Some (37 # 160)%Q)).
  { assert (E : fill_missing math_sin math_pi yt1 !! 4%nat
                ≫= (fun row => values row !! spring) = values row1 !! spring)
      by (by rewrite E1).
    rewrite <- E. vm_compute. constructor. vm_compute. reflexivity. }
  exists row1, row2. do 4 (split; [done|]). split; [|exact Hv1].
  apply (C3_fill_deterministic math_sin math_pi yt1 yt2 row1 row2 spring).
  - apply list_elem_of_In. vm_compute. tauto.
  - vm_compute. constructor. vm_compute. reflexivity.
  - vm_compute. constructor. vm_compute. reflexivity.
  - vm_compute. constructor. vm_compute. reflexivity.
  - by eapply list_elem_of_lookup_2.
  - rewrite Hy1. rewrite list_elem_of_In. vm_compute. intuition discriminate.
  - by eapply list_elem_of_lookup_2.
  - rewrite Hy2. rewrite list_elem_of_In. vm_compute. intuition discriminate.
  - by rewrite Hy1, Hy2.
Defined.

(** With an empty envelope every fabricated value is the lower bound. *)
Lemma generated_inverted (math_sin : Q -> Q) (math_pi : Q) (r : rates)
      (campaign : string) (year : Z) (mn mx base_value : Q) :
  min_rates r !! campaign = Some mn ->
  max_rates r !! campaign = Some mx ->
  avg_rates r !! campaign = Some base_value ->
  (mx < mn)%Q ->
  generated math_sin math_pi r campaign year = Some mn.
Proof.
  intros Hmn Hmx Hav Hlt. unfold generated. rewrite Hmn, Hmx, Hav.
  cbn. by rewrite clamp_inverted.
Qed.

(** C1 at a table the dashboard can receive: two customers of 2019, one
    of whom accepted each campaign, give the yearly rate 1/2.  The lower
    bound 0.9 * 1/2 = 0.45 then lies above the upper bound
    min(1.1 * 1/2, 0.35) = 0.35, and every fabricated value, for every
    campaign and every missing year, is 0.45: above the upper bound of
    its envelope. *)
Theorem C1_envelope_exceeded (math_sin : Q -> Q) (math_pi : Q) :
  let filtered_df :=
    [("Year", [VInt 2019; VInt 2019]);
     ("Spring Wine Festival", [VInt 1; VInt 0]);
     ("Summer Fruit Bundle", [VInt 1; VInt 0]);
     ("Autumn Meat Sampler", [VInt 0; VInt 1]);
     ("Winter Seafood Discount", [VInt 0; VInt 1])] in
  let yt := [mkRow 2019 (list_to_map ((fun c => (c, 1 # 2)%Q) <$> COLORS_keys))] in
  yearly_trends filtered_df = Return yt /\
  Year <$> added_rows math_sin math_pi yt = [2020; 2021; 2022; 2023; 2024] /\
  Forall (fun row =>
            Forall (fun campaign =>
                      min_rates (derive_rates yt) !! campaign = Some (9 # 20)%Q /\
                      max_rates (derive_rates yt) !! campaign = Some (35 # 100)%Q /\
                      values row !! campaign = Some (9 # 20)%Q)
                   COLORS_keys)
         (added_rows math_sin math_pi yt) /\
  ~ (9 # 20 <= 35 # 100)%Q.
Proof.
  intros filtered_df yt.
  assert (Hrates : forall c, c ∈ COLORS_keys ->
            min_rates (derive_rates yt) !! c = Some (9 # 20)%Q /\
            max_rates (derive_rates yt) !! c = Some (35 # 100)%Q /\
            avg_rates (derive_rates yt) !! c = Some (1 # 2)%Q).
  { intros c Hc. unfold COLORS_keys in Hc.
    rewrite !elem_of_cons, elem_of_nil in Hc.
    destruct Hc as [->|[->|[->|[->|[]]]]]; repeat split; vm_compute; reflexivity. }
  split; [vm_compute; reflexivity|].
  assert (Hlen : (length (existing_years yt) <? 6)%nat = true)
    by (vm_compute; reflexivity).
  assert (Hmiss : missing_years yt = [2020; 2021; 2022; 2023; 2024])
    by (vm_compute; reflexivity).
  assert (Hadded : added_rows math_sin math_pi yt
                   = new_row math_sin math_pi (derive_rates yt)
                       <$> [2020; 2021; 2022; 2023; 2024])
    by (unfold added_rows; by rewrite Hlen, Hmiss).
  rewrite Hadded. split; [by rewrite <- list_fmap_compose|].
  split; [|intros Hle; exact (Hle eq_refl)].
  apply Forall_fmap, Forall_forall. intros y _.
  apply Forall_forall. intros campaign Hc.
  destruct (Hrates campaign Hc) as (Hmn & Hmx & Hav).
  split; [done|]. split; [done|]. cbn [compose].
  rewrite new_row_lookup by done.
  by apply (generated_inverted _ _ _ _ _ _ _ _ Hmn Hmx Hav).
Qed.


(** * Further properties of the script *)

(** ** More on the year remapping *)


Lemma remapped_valid (new_year : Z) (d d' : Timestamp) :
  valid_date d -> remapped new_year d d' -> valid_date d'.
Proof.
  intros [Hm Hd] (Hy & Hmo & Hda & _). unfold valid_date.
  rewrite Hy, Hmo, Hda. split; [done|].
  destruct (Z.eqb_spec (month d) 2) as [E|E].
  - rewrite E in Hd |- *. rewrite monthrange_february in Hd |- *.
    destruct (Z.eqb_spec (day d) 29) as [E'|E']; cbn [andb].
    + destruct (isleap new_year); cbn [negb]; lia.
    + destruct (isleap (year d)), (isleap new_year); lia.
  - cbn [andb]. rewrite (monthrange_not_february new_year (year d)) by done. lia.
Qed.

(** What the loop of lines 59-79 returns, date by date. *)
Lemma new_dates_remapped (dates nd : list Timestamp) :
  Forall valid_date dates ->
  new_dates dates = Return nd ->
  Forall2 (fun d d' => remapped (2019 + rank (year d) (year <$> dates) mod 5) d d')
          dates nd.
Proof.
  intros Hvalid Hnd. unfold new_dates in Hnd. apply omapM_inv in Hnd.
  apply Forall2_same_length_lookup in Hnd as [Hlen Hnd].
  apply Forall2_same_length_lookup. split; [done|].
  intros i d d' Hd Hd'.
  destruct (remap_date_valid (year_mapping dates) d
              (2019 + rank (year d) (year <$> dates) mod 5)) as (d'' & Hd'' & Hrem).
  - eapply Forall_forall in Hvalid; [done|]. by eapply list_elem_of_lookup_2.
  - apply year_mapping_rank. by eapply list_elem_of_lookup_2.
  - rewrite (Hnd i d d' Hd Hd') in Hd''. by injection Hd'' as ->.
Qed.

Lemma rank_lt_distinct (y : Z) (years : list Z) :
  y ∈ years -> (0 <= rank y years < Z.of_nat (length (unique years))).
Proof.
  intros Hy. unfold rank. split; [lia|].
  apply inj_lt. eapply length_filter_lt; [by apply elem_of_unique|lia].
Qed.

Lemma rank_strict (y1 y2 : Z) (years : list Z) :
  y1 ∈ years -> y1 < y2 -> rank y1 years < rank y2 years.
Proof.
  intros Hy Hlt. unfold rank. apply inj_lt.
  assert (Heq : filter (fun z => z < y1) (unique years)
                = filter (fun z => z < y1) (filter (fun z => z < y2) (unique years))).
  { rewrite list_filter_filter. apply list_filter_iff. intros z. lia. }
  rewrite Heq. eapply length_filter_lt; [|apply Z.lt_irrefl].
  apply list_elem_of_filter. split; [done|by apply elem_of_unique].
Qed.


(** X1. The loop of lines 58-79 never fails on calendar dates, keeps the
    number of dates, and every date it produces exists in the calendar. *)
Theorem new_dates_valid (dates : list Timestamp) :
  Forall valid_date dates ->
  exists nd, new_dates dates = Return nd /\
             length nd = length dates /\
             Forall valid_date nd.
Proof.
  intros Hvalid. destruct (new_dates_total dates Hvalid) as [nd Hnd].
  exists nd. split; [done|].
  pose proof (new_dates_remapped dates nd Hvalid Hnd) as Hf2.
  split; [symmetry; by eapply Forall2_length|].
  apply Forall_lookup. intros i d' Hd'.
  destruct (Forall2_lookup_r _ _ _ _ _ Hf2 Hd') as (d & Hd & Hrem).
  eapply remapped_valid; [|exact Hrem].
  by eapply (proj1 (Forall_lookup _ _) Hvalid).
Qed.

Lemma new_dates_valid_witness :
  exists nd, new_dates [mkTimestamp 2012 2 29 10 30 0; mkTimestamp 2013 12 31 0 0 0]
             = Return nd /\
             length nd = 2%nat /\ Forall valid_date nd.
Proof.
  apply (new_dates_valid [mkTimestamp 2012 2 29 10 30 0; mkTimestamp 2013 12 31 0 0 0]).
  repeat (apply List.Forall_cons; [vm_compute; intuition congruence|]).
  apply List.Forall_nil.
Defined.

(** X2. With at most five distinct years in the column the remapping
    keeps the order of the years: an earlier original year gets an
    earlier new year (from the sixth distinct year on the new years wrap
    around to 2019). *)
Theorem year_mapping_monotone (dates : list Timestamp) (d1 d2 : Timestamp) :
  (length (unique (year <$> dates)) <= 5)%nat ->
  d1 ∈ dates -> d2 ∈ dates -> year d1 < year d2 ->
  exists n1 n2,
    year_mapping dates !! year d1 = Some n1 /\
    year_mapping dates !! year d2 = Some n2 /\
    n1 < n2.
Proof.
  intros Hlen H1 H2 Hlt.
  exists (2019 + rank (year d1) (year <$> dates) mod 5),
         (2019 + rank (year d2) (year <$> dates) mod 5).
  do 2 (split; [by apply year_mapping_rank|]).
  assert (Hy1 : year d1 ∈ year <$> dates) by (by apply list_elem_of_fmap_2).
  assert (Hy2 : year d2 ∈ year <$> dates) by (by apply list_elem_of_fmap_2).
  pose proof (rank_lt_distinct _ _ Hy1). pose proof (rank_lt_distinct _ _ Hy2).
  pose proof (rank_strict _ _ _ Hy1 Hlt).
  rewrite !Z.mod_small by lia. lia.
Qed.

Lemma year_mapping_monotone_witness :
  exists n1 n2,
    year_mapping [mkTimestamp 2014 1 1 0 0 0; mkTimestamp 2012 5 5 0 0 0;
                  mkTimestamp 2013 7 9 0 0 0] !! 2012 = Some n1 /\
    year_mapping [mkTimestamp 2014 1 1 0 0 0; mkTimestamp 2012 5 5 0 0 0;
                  mkTimestamp 2013 7 9 0 0 0] !! 2014 = Some n2 /\
    n1 < n2.
Proof.
  apply (year_mapping_monotone
           [mkTimestamp 2014 1 1 0 0 0; mkTimestamp 2012 5 5 0 0 0;
            mkTimestamp 2013 7 9 0 0 0]
           (mkTimestamp 2012 5 5 0 0 0) (mkTimestamp 2014 1 1 0 0 0)).
  - vm_compute. lia.
  - right; left.
  - left.
  - vm_compute. reflexivity.
Defined.

(** ** More on load_data *)

Lemma renamed_campaign (k : string) :
  k ∈ ["AcceptedCmp1"; "AcceptedCmp2"; "AcceptedCmp3"; "AcceptedCmp4"] ->
  renamed k ∈ COLORS_keys.
Proof.
  rewrite !elem_of_cons, elem_of_nil.
  intros [->|[->|[->|[->|[]]]]]; apply list_elem_of_In; vm_compute; intuition.
Qed.

Lemma renamed_inj (k n : string) :
  k ∈ ["AcceptedCmp1"; "AcceptedCmp2"; "AcceptedCmp3"; "AcceptedCmp4"] ->
  n ∈ ["AcceptedCmp1"; "AcceptedCmp2"; "AcceptedCmp3"; "AcceptedCmp4"] ->
  renamed n = renamed k -> n = k.
Proof.
  rewrite !elem_of_cons, !elem_of_nil.
  intros [->|[->|[->|[->|[]]]]] [->|[->|[->|[->|[]]]]]; vm_compute;
    intros; try reflexivity; discriminate.
Qed.

(** A raw indicator column is found under its campaign name after the
    rename, unless the table already had a column of that name. *)
Lemma get_column_renamed (df : DataFrame) (k : string) (col : list cell) :
  k ∈ ["AcceptedCmp1"; "AcceptedCmp2"; "AcceptedCmp3"; "AcceptedCmp4"] ->
  renamed k ∉ columns df ->
  get_column df k = Return col ->
  get_column (rename campaign_mapping df) (renamed k) = Return col.
Proof.
  intros Hk. induction df as [|[n c] df IH]; [done|]. intros Hnot Hget.
  change (rename campaign_mapping ((n, c) :: df))
    with ((renamed n, c) :: rename campaign_mapping df).
  cbn [columns fmap list_fmap fst] in Hnot. apply not_elem_of_cons in Hnot as [Hne Hnot].
  cbn [get_column] in Hget |- *.
  destruct (String.eqb_spec n k) as [->|Hnk].
  - by rewrite String.eqb_refl.
  - assert (renamed n <> renamed k) as ->%String.eqb_neq; [|by apply IH].
    intros E.
    destruct (decide (n ∈ ["AcceptedCmp1"; "AcceptedCmp2"; "AcceptedCmp3"; "AcceptedCmp4"]))
      as [Hn|Hn].
    + by apply Hnk, renamed_inj.
    + rewrite (renamed_other n Hn) in E. by rewrite E in Hne.
Qed.


Lemma valid_dateb_spec (y m d h mi s : Z) :
  valid_dateb y m d = true -> valid_date (mkTimestamp y m d h mi s).
Proof.
  unfold valid_dateb, valid_date. cbn.
  rewrite !andb_true_iff, !Z.leb_le. tauto.
Qed.

(** X3. In the frame load_data returns, the columns Dt_Customer, Year,
    Month and Month_Name describe the same remapped dates row by row:
    every Year lies in 2019..2023 (never 2024), every Month in 1..12, and
    Month_Name is the English name of that month. *)
Theorem loaded_date_columns (pd_to_datetime : cell -> option Timestamp)
        (file : option DataFrame) (log : list event) (df' : DataFrame) :
  (forall c t, pd_to_datetime c = Some t -> valid_date t) ->
  load_data pd_to_datetime file = (log, Return (Some df')) ->
  exists nd,
    get_column df' "Dt_Customer" = Return (VDate <$> nd) /\
    get_column df' "Year" = Return ((fun t => VInt (year t)) <$> nd) /\
    get_column df' "Month" = Return ((fun t => VInt (month t)) <$> nd) /\
    get_column df' "Month_Name" = Return (month_name <$> nd) /\
    Forall (fun t => 2019 <= year t <= 2023 /\ 1 <= month t <= 12 /\
                     exists name, month_name t = VStr name /\
                                  month_names !! Z.to_nat (month t - 1) = Some name)
           nd.
Proof.
  intros Hpd Hload. apply load_data_frame in Hload as (df & -> & Hprep).
  apply prepare_inv in Hprep as (col & parsed & nd & ids & rem & _ & Hp & _ & Hnd & _ & _ & ->).
  exists nd.
  rewrite !get_set_column_ne by done. rewrite get_set_column_eq.
  split; [done|].
  rewrite !get_set_column_ne by done. rewrite get_set_column_eq.
  split; [done|].
  rewrite !get_set_column_ne by done. rewrite get_set_column_eq.
  split; [done|].
  rewrite !get_set_column_ne by done. rewrite get_set_column_eq.
  split; [done|].
  pose proof (to_datetime_valid _ _ _ Hpd Hp) as Hvalid.
  pose proof (new_dates_remapped _ _ Hvalid Hnd) as Hf2.
  apply Forall_lookup. intros i t Ht.
  destruct (Forall2_lookup_r _ _ _ _ _ Hf2 Ht) as (d & Hd & Hy & Hm & _).
  assert (Hvd : valid_date d) by (by eapply (proj1 (Forall_lookup _ _) Hvalid)).
  destruct Hvd as [Hmonth _]. rewrite <- Hm in Hmonth.
  split; [|split; [done|]].
  - rewrite Hy. pose proof (Z.mod_pos_bound (rank (year d) (year <$> parsed)) 5). lia.
  - unfold month_name.
    assert (Hlt : (Z.to_nat (month t - 1) < length month_names)%nat) by (cbn; lia).
    apply lookup_lt_is_Some_2 in Hlt as [name Hname].
    exists name. by rewrite Hname.
Qed.

Lemma loaded_date_columns_witness :
  let parse := fun c => match c with
                        | VDate t => Timestamp_new (year t) (month t) (day t)
                                                   (hour t) (minute t) (second t)
                        | _ => None
                        end in
  let file := Some [("ID", [VInt 5; VInt 6]);
                    ("Dt_Customer", VDate <$> [mkTimestamp 2012 2 29 0 0 0;
                                               mkTimestamp 2014 11 3 0 0 0])] in
  exists df' nd,
    load_data parse file = ([], Return (Some df')) /\
    get_column df' "Year" = Return ((fun t => VInt (year t)) <$> nd) /\
    Forall (fun t => 2019 <= year t <= 2023) nd.
Proof.
  intros parse file.
  assert (Hpd : forall c t, parse c = Some t -> valid_date t).
  { intros c t Hc. destruct c as [| |t0|]; try discriminate.
    cbn in Hc. unfold Timestamp_new in Hc.
    destruct (valid_dateb (year t0) (month t0) (day t0)) eqn:E; [|discriminate].
    injection Hc as <-. by apply valid_dateb_spec. }
  destruct (load_data parse file) as [log [[df'|]|e]] eqn:Hload.
  - assert (log = []) as ->
      by (pose proof Hload as Hl; vm_compute in Hl; by injection Hl as <- _).
    destruct (loaded_date_columns parse file [] df' Hpd Hload)
      as (nd & _ & Hyear & _ & _ & Hall).
    exists df', nd. split; [reflexivity|]. split; [exact Hyear|].
    eapply Forall_impl; [exact Hall|]. cbn. tauto.
  - vm_compute in Hload. discriminate.
  - vm_compute in Hload. discriminate.
Defined.

Lemma prepare_keeps_column (pd_to_datetime : cell -> option Timestamp)
      (df df' : DataFrame) (name : string) :
  prepare pd_to_datetime df = Return df' ->
  name ∉ ["Dt_Customer"; "Year"; "Month"; "Month_Name"; "Region"] ->
  get_column df' name = get_column (rename campaign_mapping df) name.
Proof.
  intros Hprep Hname.
  apply prepare_inv in Hprep as (col & parsed & nd & ids & rem & _ & _ & _ & _ & _ & _ & ->).
  rewrite !not_elem_of_cons in Hname. destruct Hname as (H1 & H2 & H3 & H4 & H5 & _).
  by rewrite !get_set_column_ne by done.
Qed.

(** X4. load_data leaves every column it does not name as it was read:
    a column that is neither a raw indicator, nor named like a campaign,
    nor one of Dt_Customer, Year, Month, Month_Name, Region has the same
    entries in the returned frame (and is missing there if it was
    missing in the file). *)
Theorem loaded_other_columns (pd_to_datetime : cell -> option Timestamp)
        (df df' : DataFrame) (log : list event) (name : string) :
  load_data pd_to_datetime (Some df) = (log, Return (Some df')) ->
  name ∉ ["AcceptedCmp1"; "AcceptedCmp2"; "AcceptedCmp3"; "AcceptedCmp4";
          "Spring Wine Festival"; "Summer Fruit Bundle"; "Autumn Meat Sampler";
          "Winter Seafood Discount";
          "Dt_Customer"; "Year"; "Month"; "Month_Name"; "Region"] ->
  get_column df' name = get_column df name.
Proof.
  intros Hload Hname.
  apply load_data_frame in Hload as (df0 & [= <-] & Hprep).
  rewrite !not_elem_of_cons in Hname.
  destruct Hname as (H1 & H2 & H3 & H4 & H5 & H6 & H7 & H8 & H9 & H10 & H11 & H12 & H13 & _).
  rewrite (prepare_keeps_column _ _ _ _ Hprep)
    by (rewrite !not_elem_of_cons, elem_of_nil; tauto).
  apply get_column_rename; unfold COLORS_keys;
    rewrite !not_elem_of_cons, elem_of_nil; tauto.
Qed.

Lemma loaded_other_columns_witness :
  let parse := fun c => match c with VDate t => Some t | _ => None end in
  let df := [("ID", [VInt 5; VInt 6]); ("Education", [VStr "PhD"; VStr "Basic"]);
             ("Dt_Customer", VDate <$> [mkTimestamp 2012 2 29 0 0 0;
                                        mkTimestamp 2014 11 3 0 0 0])] in
  exists df',
    load_data parse (Some df) = ([], Return (Some df')) /\
    get_column df' "Education" = Return [VStr "PhD"; VStr "Basic"] /\
    get_column df' "Income" = Raise (KeyError "Income").
Proof.
  intros parse df.
  destruct (load_data parse (Some df)) as [log [[df'|]|e]] eqn:Hload.
  - assert (log = []) as ->
      by (pose proof Hload as Hl; vm_compute in Hl; by injection Hl as <- _).
    exists df'. split; [reflexivity|]. split.
    + rewrite (loaded_other_columns parse df df' [] "Education" Hload); [reflexivity|].
      rewrite !not_elem_of_cons, elem_of_nil. intuition discriminate.
    + rewrite (loaded_other_columns parse df df' [] "Income" Hload); [reflexivity|].
      rewrite !not_elem_of_cons, elem_of_nil. intuition discriminate.
  - vm_compute in Hload. discriminate.
  - vm_compute in Hload. discriminate.
Defined.

(** X5. The campaign columns of the returned frame hold the raw
    indicators: the entries of AcceptedCmp1..4 are found under the four
    campaign names, provided the file had no column of that campaign
    name already. *)
Theorem loaded_campaign_columns (pd_to_datetime : cell -> option Timestamp)
        (df df' : DataFrame) (log : list event) (k : string) (col : list cell) :
  load_data pd_to_datetime (Some df) = (log, Return (Some df')) ->
  k ∈ ["AcceptedCmp1"; "AcceptedCmp2"; "AcceptedCmp3"; "AcceptedCmp4"] ->
  renamed k ∉ columns df ->
  get_column df k = Return col ->
  get_column df' (renamed k) = Return col /\ renamed k ∈ COLORS_keys.
Proof.
  intros Hload Hk Hnot Hcol.
  apply load_data_frame in Hload as (df0 & [= <-] & Hprep).
  pose proof (renamed_campaign k Hk) as Hc. split; [|done].
  rewrite (prepare_keeps_column _ _ _ _ Hprep).
  - by apply get_column_renamed.
  - unfold COLORS_keys in Hc. rewrite !elem_of_cons, elem_of_nil in Hc.
    rewrite !not_elem_of_cons, elem_of_nil.
    destruct Hc as [->|[->|[->|[->|[]]]]]; intuition discriminate.
Qed.

Lemma loaded_campaign_columns_witness :
  let parse := fun c => match c with VDate t => Some t | _ => None end in
  let df := [("ID", [VInt 5; VInt 6]); ("AcceptedCmp2", [VInt 0; VInt 1]);
             ("Dt_Customer", VDate <$> [mkTimestamp 2012 2 29 0 0 0;
                                        mkTimestamp 2014 11 3 0 0 0])] in
  exists df',
    load_data parse (Some df) = ([], Return (Some df')) /\
    get_column df' "Summer Fruit Bundle" = Return [VInt 0; VInt 1].
Proof.
  intros parse df.
  destruct (load_data parse (Some df)) as [log [[df'|]|e]] eqn:Hload.
  - assert (log = []) as ->
      by (pose proof Hload as Hl; vm_compute in Hl; by injection Hl as <- _).
    exists df'. split; [reflexivity|].
    destruct (loaded_campaign_columns parse df df' [] "AcceptedCmp2" [VInt 0; VInt 1] Hload)
      as [Hget _]; [| |reflexivity|exact Hget].
    + right; left.
    + rewrite list_elem_of_In. vm_compute. intuition discriminate.
  - vm_compute in Hload. discriminate.
  - vm_compute in Hload. discriminate.
Defined.

(** ** More on filtering and the KPI *)


Lemma mask_rows_sublist {A} (mask : list bool) (col : list A) :
  mask_rows mask col `sublist_of` col.
Proof.
  revert col. induction mask as [|b mask IH]; intros [|x col]; cbn;
    try apply sublist_nil_l.
  destruct b; [by apply sublist_skip|by apply sublist_cons].
Qed.

Lemma columns_select_rows (mask : list bool) (df : DataFrame) :
  columns (select_rows mask df) = columns df.
Proof.
  unfold columns, select_rows. rewrite <- list_fmap_compose.
  by apply list_fmap_ext.
Qed.

Lemma get_column_select_rows_inv (mask : list bool) (df : DataFrame)
      (name : string) (col' : list cell) :
  get_column (select_rows mask df) name = Return col' ->
  exists col, get_column df name = Return col /\ col' = mask_rows mask col.
Proof.
  induction df as [|[n c] df IH]; [done|]. cbn.
  destruct (String.eqb n name); [|done].
  intros [= <-]. by exists c.
Qed.


Lemma get_column_present (df : DataFrame) (name : string) :
  name ∈ columns df -> exists col, get_column df name = Return col.
Proof.
  induction df as [|[n c] df IH]; [by intros ?%elem_of_nil|]. cbn.
  destruct (String.eqb_spec n name) as [->|Hne]; [by exists c|].
  intros [?|?]%elem_of_cons; [congruence|by apply IH].
Qed.

(** What lines 127-136 return is the loaded frame after at most two
    selections of rows. *)
Lemma filtered_cases (df fdf : DataFrame) (selected_education : list cell)
      (selected_region : string) :
  filtered df selected_education selected_region = Return fdf ->
  fdf = df \/ (exists m, fdf = select_rows m df) \/
  (exists m1 m2, fdf = select_rows m2 (select_rows m1 df)).
Proof.
  unfold filtered. intros H. bind_inv H.
  unfold region_filter in H. unfold education_filter in Hx.
  destruct selected_education as [|s sel].
  - injection Hx as <-.
    destruct (_ && _); [|injection H as <-; by left].
    bind_inv H. injection H as <-. right; left. by eexists.
  - bind_inv Hx. injection Hx as <-.
    destruct (_ && _); [|injection H as <-; right; left; by eexists].
    bind_inv H. injection H as <-. right; right. by do 2 eexists.
Qed.


(** X6. [filtered_df] never gains anything: it has the columns of the
    loaded frame, in the same order, and each of its columns is a
    subsequence of the column it comes from. *)
Theorem filtered_is_selection (df fdf : DataFrame) (selected_education : list cell)
        (selected_region : string) (name : string) (col' : list cell) :
  filtered df selected_education selected_region = Return fdf ->
  get_column fdf name = Return col' ->
  columns fdf = columns df /\
  exists col, get_column df name = Return col /\
              col' `sublist_of` col /\ (length col' <= length col)%nat.
Proof.
  intros Hf Hget.
  assert (Hfinal : forall col, col' `sublist_of` col -> get_column df name = Return col ->
            exists col, get_column df name = Return col /\
                        col' `sublist_of` col /\ (length col' <= length col)%nat).
  { intros col Hs Hc. exists col. split; [done|]. split; [done|by apply sublist_length]. }
  destruct (filtered_cases _ _ _ _ Hf) as [->|[[m ->]|(m1 & m2 & ->)]].
  - split; [done|]. by apply (Hfinal col').
  - split; [apply columns_select_rows|].
    apply get_column_select_rows_inv in Hget as (col & Hcol & ->).
    apply (Hfinal col); [apply mask_rows_sublist|done].
  - split; [by rewrite !columns_select_rows|].
    apply get_column_select_rows_inv in Hget as (col1 & Hcol1 & ->).
    apply get_column_select_rows_inv in Hcol1 as (col & Hcol & ->).
    apply (Hfinal col); [|done].
    etrans; apply mask_rows_sublist.
Qed.

Lemma filtered_is_selection_witness :
  let df := [("Education", [VStr "PhD"; VStr "Master"; VStr "PhD"]);
             ("Region", [VStr "North"; VStr "North"; VStr "South"]);
             ("Response", [VInt 1; VInt 0; VInt 0])] in
  let fdf := [("Education", [VStr "PhD"]); ("Region", [VStr "South"]);
              ("Response", [VInt 0])] in
  filtered df [VStr "PhD"] "South" = Return fdf /\
  columns fdf = columns df /\
  exists col, get_column df "Response" = Return col /\
              [VInt 0] `sublist_of` col /\ (1 <= length col)%nat.
Proof.
  intros df fdf. split; [reflexivity|].
  apply (filtered_is_selection df fdf [VStr "PhD"] "South" "Response" [VInt 0]);
    reflexivity.
Defined.

(** X7. The two filters fail in one way only: [filtered] raises exactly
    when some education level is selected and the frame has no Education
    column, and then with KeyError 'Education'; a frame without a Region
    column is never filtered by region. *)
Theorem filtered_raises (df : DataFrame) (selected_education : list cell)
        (selected_region : string) :
  (selected_education <> [] /\ "Education" ∉ columns df ->
   filtered df selected_education selected_region = Raise (KeyError "Education")) /\
  (selected_education = [] \/ "Education" ∈ columns df ->
   exists fdf, filtered df selected_education selected_region = Return fdf) /\
  ("Region" ∉ columns df ->
   filtered df selected_education selected_region
   = education_filter df selected_education).
Proof.
  split; [|split].
  - intros [Hsel Hno]. unfold filtered, education_filter.
    destruct selected_education; [done|].
    by rewrite (get_column_missing _ _ Hno).
  - intros Hok. unfold filtered.
    assert (He : exists x, education_filter df selected_education = Return x /\
                           columns x = columns df).
    { unfold education_filter. destruct selected_education as [|s sel]; [by eexists|].
      destruct Hok as [?|Hin]; [done|].
      destruct (get_column_present _ _ Hin) as [ed ->]. cbn.
      eexists. split; [done|apply columns_select_rows]. }
    destruct He as (x & -> & Hcols). cbn. unfold region_filter.
    destruct (decide ("Region" ∈ columns df)) as [Hin|Hout].
    + rewrite bool_decide_eq_true_2 by done.
      destruct (negb _); [|by eexists]. cbn.
      rewrite <- Hcols in Hin. destruct (get_column_present _ _ Hin) as [rg ->].
      by eexists.
    + rewrite bool_decide_eq_false_2 by done. by eexists.
  - intros Hout. unfold filtered.
    destruct (education_filter df selected_education) as [x|e]; [|done]. cbn.
    unfold region_filter. by rewrite bool_decide_eq_false_2 by done.
Qed.

Lemma filtered_raises_witness :
  filtered [("ID", [VInt 1])] [VStr "PhD"] "North" = Raise (KeyError "Education") /\
  filtered [("ID", [VInt 1])] [] "North" = Return [("ID", [VInt 1])].
Proof.
  destruct (filtered_raises [("ID", [VInt 1])] [VStr "PhD"] "North") as (Hraise & _ & _).
  destruct (filtered_raises [("ID", [VInt 1])] [] "North") as (_ & _ & Hregion).
  split.
  - apply Hraise. split; [discriminate|].
    rewrite list_elem_of_In. vm_compute. intuition discriminate.
  - rewrite Hregion; [reflexivity|].
    rewrite list_elem_of_In. vm_compute. intuition discriminate.
Defined.

(** X8. On a nonempty 0/1 Response column the Overall Response Rate is a
    percentage: it lies between 0 and 100. *)
Theorem response_rate_bounds (filtered_df : DataFrame) (col : list cell) :
  get_column filtered_df "Response" = Return col ->
  col <> [] ->
  Forall (fun c => c = VInt 0 \/ c = VInt 1) col ->
  exists q, response_rate filtered_df = Return (Some q) /\ (0 <= q <= 100)%Q.
Proof.
  intros Hcol Hne Hbin.
  destruct (binary_numeric_values col Hbin) as (qs & Hqs & Hlen & Hsum).
  unfold response_rate, Series_mean. rewrite Hcol. cbn [mbind outcome_bind obind].
  rewrite Hqs. cbn [mbind outcome_bind obind].
  destruct qs as [|q0 qs]; [by destruct col|].
  eexists. split; [reflexivity|].
  rewrite Hsum, Hlen.
  assert (Hones : (ones col <= length col)%nat) by apply length_filter.
  assert (Hpos : (0 < length col)%nat) by (destruct col; [done|cbn; lia]).
  set (k := Z.of_nat (ones col)). set (n := Z.of_nat (length col)).
  assert (0 <= k <= n /\ 0 < n) as [Hk Hn] by (unfold k, n; lia).
  clearbody k n. clear -Hk Hn.
  assert (Hn' : (0 < inject_Z n)%Q) by (unfold Qlt; cbn; lia).
  assert (Hk0 : (0 <= inject_Z k)%Q) by (unfold Qle; cbn; lia).
  assert (Hkn : (inject_Z k <= inject_Z n)%Q) by (unfold Qle; cbn; lia).
  split.
  - apply Qmult_le_0_compat; [|discriminate].
    apply Qle_shift_div_l; [done|]. by rewrite Qmult_0_l.
  - apply Qle_trans with (1 * 100)%Q; [|discriminate].
    apply Qmult_le_compat_r; [|discriminate].
    apply Qle_shift_div_r; [done|]. by rewrite Qmult_1_l.
Qed.

Lemma response_rate_bounds_witness :
  exists q, response_rate [("Response", [VInt 1; VInt 1; VInt 0])] = Return (Some q) /\
            (0 <= q <= 100)%Q.
Proof.
  apply (response_rate_bounds [("Response", [VInt 1; VInt 1; VInt 0])]
                              [VInt 1; VInt 1; VInt 0]).
  - reflexivity.
  - discriminate.
  - repeat (apply List.Forall_cons; [auto|]). apply List.Forall_nil.
Defined.

(** ** More on the trend table *)

Lemma NoDup_COLORS_keys : NoDup COLORS_keys.
Proof.
  unfold COLORS_keys. repeat (apply NoDup_cons; split;
    [rewrite ?not_elem_of_cons, ?elem_of_nil; intuition discriminate|]).
  apply NoDup_nil_2.
Qed.

Lemma py_min_cases (a b : Q) : py_min a b = a \/ py_min a b = b.
Proof. unfold py_min. destruct (Qle_bool a b); auto. Qed.

Lemma py_max_spec (a b : Q) : (a <= py_max a b /\ b <= py_max a b)%Q.
Proof.
  unfold py_max. destruct (Qle_bool b a) eqn:E.
  - apply Qle_bool_iff in E. split; [apply Qle_refl|done].
  - split; [|apply Qle_refl].
    destruct (Qlt_le_dec a b) as [Hlt|Hle]; [by apply Qlt_le_weak|].
    apply Qle_bool_iff in Hle. congruence.
Qed.

(** [Series.min] is below every entry, [Series.max] above. *)
Lemma Series_min_le (l : list Q) (m x : Q) :
  Series_min l = Some m -> x ∈ l -> (m <= x)%Q.
Proof.
  destruct l as [|a l]; [done|]. cbn. intros [= <-].
  revert a x. induction l as [|b l IH]; intros a x Hx; cbn.
  - apply list_elem_of_singleton in Hx as ->. apply Qle_refl.
  - assert (Hstep : forall c d, (c <= d)%Q -> (foldl py_min c l <= d)%Q).
    { intros c d Hcd. eapply Qle_trans; [|exact Hcd]. apply IH. left. }
    apply elem_of_cons in Hx as [->|Hx].
    + apply Hstep, py_min_spec.
    + apply elem_of_cons in Hx as [->|Hx].
      * apply Hstep, py_min_spec.
      * apply IH. by right.
Qed.

Lemma Series_max_ge (l : list Q) (m x : Q) :
  Series_max l = Some m -> x ∈ l -> (x <= m)%Q.
Proof.
  destruct l as [|a l]; [done|]. cbn. intros [= <-].
  revert a x. induction l as [|b l IH]; intros a x Hx; cbn.
  - apply list_elem_of_singleton in Hx as ->. apply Qle_refl.
  - assert (Hstep : forall c d, (d <= c)%Q -> (d <= foldl py_max c l)%Q).
    { intros c d Hcd. eapply Qle_trans; [exact Hcd|]. apply IH. left. }
    apply elem_of_cons in Hx as [->|Hx].
    + apply Hstep, py_max_spec.
    + apply elem_of_cons in Hx as [->|Hx].
      * apply Hstep, py_max_spec.
      * apply IH. by right.
Qed.

(** The three dicts of a nonempty table, campaign by campaign. *)
Lemma derive_rates_lookup (yt : list trend_row) (c : string) :
  yt <> [] -> c ∈ COLORS_keys ->
  min_rates (derive_rates yt) !! c
  = option_map (fun q => q * (9 # 10))%Q (Series_min (trend_column yt c)) /\
  max_rates (derive_rates yt) !! c
  = option_map (fun q => py_min (q * (11 # 10)) (35 # 100))%Q
               (Series_max (trend_column yt c)) /\
  avg_rates (derive_rates yt) !! c = mean (trend_column yt c).
Proof.
  intros Hne Hc. destruct yt as [|r0 yt0]; [done|].
  set (yt := r0 :: yt0).
  pose (F := fun (r : rates) (campaign : string) =>
               let col := trend_column yt campaign in
               mkRates
                 (set_rate campaign
                    (option_map (fun q => q * (9 # 10))%Q (Series_min col))
                    (min_rates r))
                 (set_rate campaign
                    (option_map (fun q => py_min (q * (11 # 10)) (35 # 100))%Q
                       (Series_max col))
                    (max_rates r))
                 (set_rate campaign (mean col) (avg_rates r))).
  change (derive_rates yt) with (foldl F (mkRates ∅ ∅ ∅) COLORS_keys).
  assert (Hproj : forall l r,
    min_rates (foldl F r l)
    = foldl (fun m k => set_rate k
               (option_map (fun q => q * (9 # 10))%Q (Series_min (trend_column yt k))) m)
            (min_rates r) l /\
    max_rates (foldl F r l)
    = foldl (fun m k => set_rate k
               (option_map (fun q => py_min (q * (11 # 10)) (35 # 100))%Q
                           (Series_max (trend_column yt k))) m)
            (max_rates r) l /\
    avg_rates (foldl F r l)
    = foldl (fun m k => set_rate k (mean (trend_column yt k)) m) (avg_rates r) l).
  { induction l as [|k l IH]; intros r; [done|]. cbn [foldl]. apply IH. }
  destruct (Hproj COLORS_keys (mkRates ∅ ∅ ∅)) as (-> & -> & ->). cbn [min_rates max_rates avg_rates].
  rewrite !(foldl_set_rate (fun x => x) 0%Q _ _ _ _ NoDup_COLORS_keys).
  rewrite !decide_True by done. rewrite lookup_empty.
  repeat split.
  - by destruct (Series_min _).
  - by destruct (Series_max _).
  - by destruct (mean _).
Qed.


(** X9. When some observed yearly rate of a campaign lies between 0 and
    0.38, the envelope of that campaign is not empty and every
    fabricated value of the campaign lies inside it.  (The lower bound
    is then at most 0.342, away from the cap 0.35 by more than rounding
    can bridge.) *)
Theorem envelope_holds (math_sin : Q -> Q) (math_pi : Q)
        (yt : list trend_row) (campaign : string) (q0 : Q) :
  campaign ∈ COLORS_keys ->
  q0 ∈ trend_column yt campaign -> (0 <= q0 <= 38 # 100)%Q ->
  exists mn mx,
    min_rates (derive_rates yt) !! campaign = Some mn /\
    max_rates (derive_rates yt) !! campaign = Some mx /\
    (mn <= mx)%Q /\
    Forall (fun row => exists v, values row !! campaign = Some v /\ (mn <= v <= mx)%Q)
           (added_rows math_sin math_pi yt).
Proof.
  intros Hc Hq0 [H0 Hsmall].
  assert (Hne : yt <> []) by (intros ->; by apply elem_of_nil in Hq0).
  destruct (derive_rates_lookup yt campaign Hne Hc) as (Hmn & Hmx & Hav).
  destruct (trend_column yt campaign) as [|x l] eqn:Ecol;
    [by apply elem_of_nil in Hq0|].
  destruct (Series_min (x :: l)) as [m|] eqn:Em; [|done].
  destruct (Series_max (x :: l)) as [M|] eqn:EM; [|done].
  destruct (mean (x :: l)) as [a|] eqn:Ea; [|done].
  cbn [option_map] in Hmn, Hmx.
  pose proof (Series_min_le _ _ _ Em Hq0) as Hm.
  pose proof (Series_max_ge _ _ _ EM Hq0) as HM.
  assert (Hle : (m * (9 # 10) <= py_min (M * (11 # 10)) (35 # 100))%Q).
  { destruct (py_min_cases (M * (11 # 10)) (35 # 100)) as [-> | ->]; lra. }
  eexists _, _. split; [exact Hmn|]. split; [exact Hmx|]. split; [exact Hle|].
  unfold added_rows. destruct (_ <? _)%nat; [|constructor].
  apply Forall_fmap, Forall_forall. intros y _. cbn [compose].
  rewrite new_row_lookup by done.
  assert (Hg : generated math_sin math_pi (derive_rates yt) campaign y
               = Some (py_max (m * (9 # 10))
                         (py_min (trend_value math_sin math_pi campaign y
                                    (m * (9 # 10)) a
                                    (py_min (M * (11 # 10)) (35 # 100)))
                                 (py_min (M * (11 # 10)) (35 # 100)))))
    by (unfold generated; by rewrite Hav, Hmn, Hmx).
  eexists. split; [exact Hg|]. by apply clamp_within.
Qed.

Lemma envelope_holds_witness :
  let yt := [mkRow 2019 (list_to_map ((fun c => (c, 6 # 100)%Q) <$> COLORS_keys));
             mkRow 2020 (list_to_map ((fun c => (c, 8 # 100)%Q) <$> COLORS_keys))] in
  exists mn mx,
    min_rates (derive_rates yt) !! "Winter Seafood Discount" = Some mn /\
    max_rates (derive_rates yt) !! "Winter Seafood Discount" = Some mx /\
    (mn <= mx)%Q /\
    Forall (fun row => exists v, values row !! "Winter Seafood Discount" = Some v /\
                                 (mn <= v <= mx)%Q)
           (added_rows (fun x => x) 3 yt).
Proof.
  intros yt.
  apply (envelope_holds (fun x => x) 3 yt "Winter Seafood Discount" (6 # 100)%Q).
  - apply list_elem_of_In. vm_compute. tauto.
  - apply list_elem_of_In. vm_compute. tauto.
  - split; discriminate.
Defined.

(** X10. With no observed year at all the defaults apply: six rows are
    fabricated, for 2019 to 2024 in this order, and every value lies
    between 0.05 and 0.25. *)
Theorem fill_missing_empty (math_sin : Q -> Q) (math_pi : Q) :
  Year <$> fill_missing math_sin math_pi [] = [2019; 2020; 2021; 2022; 2023; 2024] /\
  Forall (fun row =>
            Forall (fun campaign =>
                      exists v, values row !! campaign = Some v /\
                                (5 # 100 <= v <= 25 # 100)%Q)
                   COLORS_keys)
         (fill_missing math_sin math_pi []).
Proof.
  rewrite fill_missing_added. cbn [app].
  assert (Hadded : added_rows math_sin math_pi []
                   = new_row math_sin math_pi (derive_rates []) <$> all_years)
    by reflexivity.
  rewrite Hadded. split; [by rewrite <- list_fmap_compose|].
  apply Forall_fmap, Forall_forall. intros y _.
  apply Forall_forall. intros c Hc. cbn [compose].
  rewrite new_row_lookup by done.
  assert (Hr : min_rates (derive_rates []) !! c = Some (5 # 100)%Q /\
               max_rates (derive_rates []) !! c = Some (25 # 100)%Q /\
               avg_rates (derive_rates []) !! c = Some (15 # 100)%Q).
  { unfold COLORS_keys in Hc. rewrite !elem_of_cons, elem_of_nil in Hc.
    destruct Hc as [->|[->|[->|[->|[]]]]]; repeat split; vm_compute; reflexivity. }
  destruct Hr as (Hmn & Hmx & Hav).
  unfold generated. rewrite Hav, Hmn, Hmx. cbn [mbind option_bind].
  eexists. split; [reflexivity|]. apply clamp_within. discriminate.
Qed.

(** X11. Filling keeps the observed rows as they are and appends, when the
    table has fewer than six distinct years, exactly the years of
    2019..2024 it lacks, in increasing order; afterwards each of
    2019..2024 has a row.  A table with six or more distinct years is
    left alone. *)
Theorem fill_missing_years (math_sin : Q -> Q) (math_pi : Q) (yt : list trend_row) :
  take (length yt) (fill_missing math_sin math_pi yt) = yt /\
  Year <$> fill_missing math_sin math_pi yt
  = (Year <$> yt)
      ++ (if (length (existing_years yt) <? 6)%nat
          then filter (fun y => y ∉ Year <$> yt) [2019; 2020; 2021; 2022; 2023; 2024]
          else []) /\
  ((length (existing_years yt) < 6)%nat ->
   forall y, 2019 <= y <= 2024 -> y ∈ Year <$> fill_missing math_sin math_pi yt) /\
  ((6 <= length (existing_years yt))%nat -> fill_missing math_sin math_pi yt = yt).
Proof.
  rewrite fill_missing_added.
  assert (Hmiss : missing_years yt
                  = filter (fun y => y ∉ Year <$> yt) [2019; 2020; 2021; 2022; 2023; 2024]).
  { unfold missing_years, all_years. apply list_filter_iff. intros y.
    unfold existing_years. by rewrite elem_of_unique. }
  assert (Hyears : Year <$> added_rows math_sin math_pi yt
                   = if (length (existing_years yt) <? 6)%nat
                     then filter (fun y => y ∉ Year <$> yt)
                                 [2019; 2020; 2021; 2022; 2023; 2024]
                     else []).
  { unfold added_rows. destruct (_ <? _)%nat; [|done].
    rewrite <- list_fmap_compose, <- Hmiss. apply list_fmap_id. }
  split; [by rewrite take_app_length|].
  split; [by rewrite fmap_app, Hyears|].
  split.
  - intros Hlt y Hy. rewrite fmap_app, Hyears.
    apply Nat.ltb_lt in Hlt as ->. apply elem_of_app.
    destruct (decide (y ∈ Year <$> yt)) as [Hin|Hout]; [by left|right].
    apply list_elem_of_filter. split; [done|].
    assert (y = 2019 \/ y = 2020 \/ y = 2021 \/ y = 2022 \/ y = 2023 \/ y = 2024)
      as [->|[->|[->|[->|[->| ->]]]]] by lia;
      rewrite !elem_of_cons; tauto.
  - intros Hge. unfold added_rows.
    apply Nat.ltb_ge in Hge as ->. apply app_nil_r.
Qed.

Lemma fill_missing_years_witness :
  let yt := [mkRow 2021 ∅; mkRow 2019 ∅] in
  Year <$> fill_missing (fun x => x) 3 yt = [2021; 2019; 2020; 2022; 2023; 2024] /\
  2024 ∈ Year <$> fill_missing (fun x => x) 3 yt.
Proof.
  intros yt.
  destruct (fill_missing_years (fun x => x) 3 yt) as (_ & Hyears & Hall & _).
  split.
  - rewrite Hyears. reflexivity.
  - apply Hall; [vm_compute; lia|lia].
Defined.

(** ** The trend chart *)

Lemma missing_years_spec (yt : list trend_row) :
  missing_years yt
  = filter (fun y => y ∉ Year <$> yt) [2019; 2020; 2021; 2022; 2023; 2024].
Proof.
  unfold missing_years, all_years. apply list_filter_iff. intros y.
  unfold existing_years. by rewrite elem_of_unique.
Qed.

Lemma added_rows_years (math_sin : Q -> Q) (math_pi : Q) (yt : list trend_row) :
  Year <$> added_rows math_sin math_pi yt
  = if (length (existing_years yt) <? 6)%nat
    then filter (fun y => y ∉ Year <$> yt) [2019; 2020; 2021; 2022; 2023; 2024]
    else [].
Proof.
  unfold added_rows. destruct (_ <? _)%nat; [|done].
  rewrite <- list_fmap_compose, <- missing_years_spec. apply list_fmap_id.
Qed.

(** After filling a table of fewer than six distinct years, each of
    2019..2024 has a row. *)
Lemma fill_missing_has_year (math_sin : Q -> Q) (math_pi : Q)
      (yt : list trend_row) (y : Z) :
  (length (existing_years yt) < 6)%nat -> 2019 <= y <= 2024 ->
  y ∈ Year <$> fill_missing math_sin math_pi yt.
Proof.
  intros Hlt Hy. rewrite fill_missing_added, fmap_app, added_rows_years.
  apply Nat.ltb_lt in Hlt as ->. apply elem_of_app.
  destruct (decide (y ∈ Year <$> yt)) as [Hin|Hout]; [by left|right].
  apply list_elem_of_filter. split; [done|].
  assert (y = 2019 \/ y = 2020 \/ y = 2021 \/ y = 2022 \/ y = 2023 \/ y = 2024)
    as [->|[->|[->|[->|[->| ->]]]]] by lia;
    rewrite !elem_of_cons; tauto.
Qed.

Lemma to_percent_years (yt : list trend_row) : Year <$> to_percent yt = Year <$> yt.
Proof. unfold to_percent. rewrite <- list_fmap_compose. by apply list_fmap_ext. Qed.

Lemma sort_by_year_Permutation (yt : list trend_row) : sort_by_year yt ≡ₚ yt.
Proof. apply merge_sort_Permutation. Qed.

Lemma annotation_y_found (yt : list trend_row) (year : Z) (campaign : string) :
  year ∈ Year <$> yt -> exists v, annotation_y yt year campaign = Some v.
Proof.
  intros Hy. rewrite <- to_percent_years in Hy.
  apply list_elem_of_fmap in Hy as (r & -> & Hr).
  unfold annotation_y.
  assert (Hin : r ∈ filter (fun r0 => Year r0 = Year r) (sort_by_year (to_percent yt))).
  { apply list_elem_of_filter. split; [done|]. by rewrite sort_by_year_Permutation. }
  destruct (filter _ _) as [|r1 l]; [by apply elem_of_nil in Hin|by eexists].
Qed.

Lemma foldl_alter_lookup (f : Q -> Q) (l : list string) (m : gmap string Q) (c : string) :
  NoDup l ->
  foldl (fun m0 k => alter f k m0) m l !! c
  = if decide (c ∈ l) then f <$> m !! c else m !! c.
Proof.
  revert m. induction l as [|k l IH]; intros m Hnd; [done|].
  apply NoDup_cons in Hnd as [Hk Hnd]. cbn [foldl]. rewrite IH by done.
  destruct (decide (c = k)) as [->|Hne].
  - rewrite decide_False by done. rewrite decide_True by left.
    apply lookup_alter_eq.
  - rewrite lookup_alter_ne by done.
    destruct (decide (c ∈ l)) as [Hin|Hout].
    + by rewrite decide_True by (by right).
    + rewrite decide_False; [done|]. rewrite elem_of_cons. tauto.
Qed.

Lemma filter_eq_NoDup (l : list Z) (y : Z) :
  NoDup l -> y ∈ l -> filter (fun z => z = y) l = [y].
Proof.
  induction l as [|a l IH]; intros Hnd Hy; [by apply elem_of_nil in Hy|].
  apply NoDup_cons in Hnd as [Ha Hnd].
  destruct (decide (a = y)) as [->|Hne].
  - rewrite filter_cons_True by done. f_equal.
    clear IH Hy. induction l as [|b l IH]; [done|].
    apply not_elem_of_cons in Ha as [Hb Ha]. apply NoDup_cons in Hnd as [_ Hnd].
    rewrite filter_cons_False by done. by apply IH.
  - rewrite filter_cons_False by done. apply IH; [done|].
    apply elem_of_cons in Hy as [?|?]; [congruence|done].
Qed.


(** ** The years of the trend table *)

Lemma increasing_length_bound (l : list Z) (a b : Z) :
  StronglySorted Z.lt l -> (forall y, y ∈ l -> a <= y <= b) ->
  Z.of_nat (length l) <= Z.max 0 (b - a + 1).
Proof.
  intros Hs. revert a. induction Hs as [|x l Hs IH Hall]; intros a Hin; [cbn; lia|].
  rewrite Forall_forall in Hall.
  assert (Hx : a <= x <= b) by (apply Hin; left).
  specialize (IH (x + 1)). cbn [length].
  assert (Z.of_nat (length l) <= Z.max 0 (b - (x + 1) + 1)).
  { apply IH. intros y Hy. specialize (Hall y Hy).
    assert (a <= y <= b) by (apply Hin; by right). lia. }
  lia.
Qed.

Lemma group_keys_spec (col : list cell) (y : Z) :
  y ∈ group_keys col <-> VInt y ∈ col.
Proof.
  unfold group_keys. rewrite sorted_Permutation, elem_of_unique, list_elem_of_omap.
  split.
  - intros (c & Hc & Hy). destruct c; try discriminate. by injection Hy as <-.
  - intros Hy. by exists (VInt y).
Qed.

Lemma group_keys_increasing (col : list cell) : StronglySorted Z.lt (group_keys col).
Proof. apply sorted_increasing, NoDup_unique. Qed.

Lemma yearly_trends_years (filtered_df : DataFrame) (years : list cell)
      (yt : list trend_row) :
  get_column filtered_df "Year" = Return years ->
  yearly_trends filtered_df = Return yt ->
  Year <$> yt = group_keys years.
Proof.
  intros Hyears. unfold yearly_trends. rewrite Hyears. cbn [mbind outcome_bind obind].
  intros H. bind_inv H. apply omapM_inv in H.
  induction H as [|y r ys rs Hy _ IH]; [done|].
  cbn. rewrite IH. f_equal. bind_inv Hy. by injection Hy as <-.
Qed.

(** X12. The trend table of a frame whose years lie in 2019..2023, as
    load_data makes them, has one row per year of the data in increasing
    order and at most five of them, so the filling always runs and the
    row of 2024 is always a fabricated one. *)
Theorem trend_table_years (math_sin : Q -> Q) (math_pi : Q)
        (filtered_df : DataFrame) (years : list cell) (yt : list trend_row) :
  get_column filtered_df "Year" = Return years ->
  Forall (fun c => exists y, c = VInt y /\ 2019 <= y <= 2023) years ->
  yearly_trends filtered_df = Return yt ->
  StronglySorted Z.lt (Year <$> yt) /\
  (forall y, y ∈ Year <$> yt <-> VInt y ∈ years) /\
  (length (existing_years yt) <= 5)%nat /\
  2024 ∉ Year <$> yt /\
  2024 ∈ Year <$> added_rows math_sin math_pi yt.
Proof.
  intros Hyears Hrange Hyt.
  pose proof (yearly_trends_years _ _ _ Hyears Hyt) as Hkeys.
  assert (Hin : forall y, y ∈ Year <$> yt -> 2019 <= y <= 2023).
  { intros y Hy. rewrite Hkeys in Hy. apply group_keys_spec in Hy.
    eapply Forall_forall in Hrange; [|exact Hy].
    destruct Hrange as (y' & [= <-] & ?). done. }
  assert (Hlen : (length (existing_years yt) <= 5)%nat).
  { unfold existing_years.
    pose proof (increasing_length_bound (sorted (unique (Year <$> yt))) 2019 2023
                  (sorted_increasing _ (NoDup_unique _))) as Hb.
    rewrite sorted_Permutation in Hb.
    assert (Z.of_nat (length (unique (Year <$> yt))) <= Z.max 0 (2023 - 2019 + 1)); [|lia].
    apply Hb. intros y Hy. apply Hin. rewrite <- elem_of_unique.
    by rewrite <- (sorted_Permutation (unique (Year <$> yt))). }
  assert (Hno : 2024 ∉ Year <$> yt) by (intros Hy; apply Hin in Hy; lia).
  split; [rewrite Hkeys; apply group_keys_increasing|].
  split; [intros y; rewrite Hkeys; apply group_keys_spec|].
  split; [done|]. split; [done|].
  rewrite added_rows_years.
  assert ((length (existing_years yt) <? 6)%nat = true) as ->
    by (apply Nat.ltb_lt; lia).
  apply list_elem_of_filter. split; [done|].
  rewrite !elem_of_cons. tauto.
Qed.

Lemma trend_table_years_witness :
  let df := [("Year", [VInt 2020; VInt 2019; VInt 2020]);
             ("Spring Wine Festival", [VInt 1; VInt 0; VInt 0]);
             ("Summer Fruit Bundle", [VInt 0; VInt 0; VInt 0]);
             ("Autumn Meat Sampler", [VInt 1; VInt 1; VInt 0]);
             ("Winter Seafood Discount", [VInt 0; VInt 0; VInt 1])] in
  exists yt,
    yearly_trends df = Return yt /\
    Year <$> yt = [2019; 2020] /\
    2024 ∈ Year <$> added_rows (fun x => x) 3 yt.
Proof.
  intros df.
  destruct (yearly_trends df) as [yt|e] eqn:Hyt; [|vm_compute in Hyt; discriminate].
  exists yt. split; [reflexivity|].
  destruct (trend_table_years (fun x => x) 3 df [VInt 2020; VInt 2019; VInt 2020] yt)
    as (_ & _ & _ & _ & H2024); [reflexivity| |exact Hyt|].
  - repeat (apply List.Forall_cons; [eexists; split; [reflexivity|lia]|]).
    apply List.Forall_nil.
  - split; [|exact H2024].
    rewrite (yearly_trends_years df [VInt 2020; VInt 2019; VInt 2020] yt eq_refl Hyt).
    reflexivity.
Defined.

(** X13. On a table of fewer than six distinct years (as every table of a
    loaded frame is, its years lying in 2019..2023) none of the five
    annotations of the trend chart fails: after filling, each year of
    2019..2024 has a row to read the height from. *)
Theorem annotations_found (math_sin : Q -> Q) (math_pi : Q) (yt : list trend_row) :
  (length (existing_years yt) < 6)%nat ->
  Forall (fun a => exists v,
            annotation_y (fill_missing math_sin math_pi yt) a.1 a.2 = Some v)
         annotations.
Proof.
  intros Hlt. unfold annotations.
  repeat (apply List.Forall_cons;
          [apply annotation_y_found, fill_missing_has_year; [done|cbn; lia]|]).
  apply List.Forall_nil.
Qed.

Lemma annotations_found_witness :
  Forall (fun a => exists v,
            annotation_y (fill_missing (fun x => x) 3 [mkRow 2020 ∅; mkRow 2019 ∅])
                         a.1 a.2 = Some v)
         annotations.
Proof.
  apply (annotations_found (fun x => x) 3 [mkRow 2020 ∅; mkRow 2019 ∅]).
  vm_compute. lia.
Defined.

(** X14. For a year the data lacks, the annotation shows the fabricated
    value as a percentage: 100 times the clamped trend formula. *)
Theorem annotation_fabricated (math_sin : Q -> Q) (math_pi : Q)
        (yt : list trend_row) (year : Z) (campaign : string) :
  (length (existing_years yt) < 6)%nat ->
  2019 <= year <= 2024 -> year ∉ Year <$> yt -> campaign ∈ COLORS_keys ->
  annotation_y (fill_missing math_sin math_pi yt) year campaign
  = Some ((fun q => q * 100)%Q <$> generated math_sin math_pi (derive_rates yt) campaign year).
Proof.
  intros Hlt Hy Hout Hc. unfold annotation_y.
  set (pct := fun r => mkRow (Year r)
                (foldl (fun m k => alter (fun q => q * 100)%Q k m) (values r) COLORS_keys)).
  set (r := derive_rates yt).
  assert (Hfilter : filter (fun r0 => Year r0 = year)
                      (to_percent (fill_missing math_sin math_pi yt))
                    = [pct (new_row math_sin math_pi r year)]).
  { rewrite fill_missing_added. unfold to_percent. fold pct.
    rewrite fmap_app, filter_app.
    assert (Hnone : filter (fun r0 => Year r0 = year) (pct <$> yt) = []).
    { clear -Hout. induction yt as [|a l IH]; [done|].
      rewrite fmap_cons in Hout. apply not_elem_of_cons in Hout as [Hne Hout].
      rewrite fmap_cons, filter_cons_False by (cbn; congruence). by apply IH. }
    rewrite Hnone. cbn [app].
    unfold added_rows. apply Nat.ltb_lt in Hlt as ->. fold r.
    rewrite <- list_fmap_compose.
    assert (Hmap : forall l : list Z,
              filter (fun r0 => Year r0 = year)
                     ((pct ∘ new_row math_sin math_pi r) <$> l)
              = (pct ∘ new_row math_sin math_pi r) <$> filter (fun z => z = year) l).
    { induction l as [|a l IH]; [done|]. rewrite fmap_cons.
      destruct (decide (a = year)) as [E|E].
      - rewrite !filter_cons_True by done. by rewrite fmap_cons, IH.
      - by rewrite !filter_cons_False by done. }
    rewrite Hmap, filter_eq_NoDup; [done| |].
    - rewrite missing_years_spec. apply NoDup_filter.
      repeat (apply NoDup_cons; split;
        [rewrite ?not_elem_of_cons, ?elem_of_nil; lia|]). apply NoDup_nil_2.
    - rewrite missing_years_spec. apply list_elem_of_filter. split; [done|].
      assert (year = 2019 \/ year = 2020 \/ year = 2021 \/ year = 2022 \/
              year = 2023 \/ year = 2024)
        as [->|[->|[->|[->|[->| ->]]]]] by lia; rewrite !elem_of_cons; tauto. }
  assert (Hperm : filter (fun r0 => Year r0 = year)
                    (sort_by_year (to_percent (fill_missing math_sin math_pi yt)))
                  ≡ₚ [pct (new_row math_sin math_pi r year)]).
  { rewrite <- Hfilter. apply filter_Permutation, sort_by_year_Permutation. }
  apply Permutation_singleton_r in Hperm as ->.
  f_equal. cbn [values pct].
  rewrite (foldl_alter_lookup _ _ _ _ NoDup_COLORS_keys).
  rewrite decide_True by done. by rewrite new_row_lookup.
Qed.

Lemma annotation_fabricated_witness :
  annotation_y (fill_missing (fun x => x) 3 []) 2024 "Autumn Meat Sampler"
  = Some ((fun q => q * 100)%Q
            <$> generated (fun x => x) 3 (derive_rates []) "Autumn Meat Sampler" 2024).
Proof.
  apply (annotation_fabricated (fun x => x) 3 [] 2024 "Autumn Meat Sampler").
  - vm_compute. lia.
  - lia.
  - apply not_elem_of_nil.
  - apply list_elem_of_In. vm_compute. tauto.
Defined.

(** ** The best month *)


Lemma Qle_bool_false (a b : Q) : Qle_bool a b = false -> (b < a)%Q.
Proof.
  intros E. destruct (Qlt_le_dec b a) as [Hlt|Hle]; [done|].
  apply Qle_bool_iff in Hle. congruence.
Qed.

(** The scan of [idxmax]: what it returns is the first largest number
    among the entry it started with and the entries it read. *)
Lemma idxmax_from_spec (l : list (option Q)) (i : nat) (best : option (nat * Q))
      (j : nat) (b : Q) :
  idxmax_from i best l = Some (j, b) ->
  (forall k q, l !! k = Some (Some q) -> (q <= b)%Q) /\
  (forall j0 b0, best = Some (j0, b0) -> (b0 <= b)%Q) /\
  (best = Some (j, b) \/
   exists k, j = (i + k)%nat /\ l !! k = Some (Some b) /\
             (forall k' q, (k' < k)%nat -> l !! k' = Some (Some q) -> (q < b)%Q) /\
             (forall j0 b0, best = Some (j0, b0) -> (b0 < b)%Q)).
Proof.
  revert i best. induction l as [|[q|] l IH]; intros i best H; cbn in H.
  - subst best. split; [done|]. split; [|by left].
    intros j0 b0 [= _ <-]. apply Qle_refl.
  - assert (Hnew : idxmax_from (S i) (Some (i, q)) l = Some (j, b) ->
              (forall j0 b0, best = Some (j0, b0) -> (b0 < q)%Q) ->
              (forall k q0, (Some q :: l) !! k = Some (Some q0) -> (q0 <= b)%Q) /\
              (forall j0 b0, best = Some (j0, b0) -> (b0 <= b)%Q) /\
              (best = Some (j, b) \/
               exists k, j = (i + k)%nat /\ (Some q :: l) !! k = Some (Some b) /\
                 (forall k' q0, (k' < k)%nat -> (Some q :: l) !! k' = Some (Some q0) ->
                                (q0 < b)%Q) /\
                 (forall j0 b0, best = Some (j0, b0) -> (b0 < b)%Q))).
    { intros Hrec Hbest. destruct (IH _ _ Hrec) as (Hall & Hb & Hcase).
      assert (Hqb : (q <= b)%Q) by (by eapply Hb).
      split; [|split].
      - intros [|k] q0 Hk; cbn in Hk; [injection Hk as <-; done|by eapply Hall].
      - intros j0 b0 E. specialize (Hbest j0 b0 E). lra.
      - right. destruct Hcase as [[= <- <-]|(k & -> & Hk & Hbefore & Hlt)].
        + exists 0%nat. split; [lia|]. split; [done|]. split; [lia|]. done.
        + exists (S k). split; [lia|]. split; [done|]. split.
          * intros [|k'] q0 Hk' Hq0; cbn in Hq0.
            -- injection Hq0 as <-. by eapply Hlt.
            -- eapply Hbefore; [|done]. lia.
          * intros j0 b0 E. specialize (Hbest j0 b0 E).
            assert (q < b)%Q by (by eapply Hlt). lra. }
    destruct best as [[j1 b1]|].
    + destruct (Qle_bool q b1) eqn:E.
      * apply Qle_bool_iff in E. destruct (IH _ _ H) as (Hall & Hb & Hcase).
        assert (Hb1 : (b1 <= b)%Q) by (by eapply Hb).
        split; [|split; [done|]].
        -- intros [|k] q0 Hk; cbn in Hk; [injection Hk as <-; lra|by eapply Hall].
        -- destruct Hcase as [?|(k & -> & Hk & Hbefore & Hlt)]; [by left|right].
           exists (S k). split; [lia|]. split; [done|]. split; [|done].
           intros [|k'] q0 Hk' Hq0; cbn in Hq0.
           ++ injection Hq0 as <-. assert (b1 < b)%Q by (by eapply Hlt). lra.
           ++ eapply Hbefore; [|done]. lia.
      * apply Qle_bool_false in E. apply Hnew; [done|].
        by intros j0 b0 [= _ <-].
    + apply Hnew; [done|done].
  - destruct (IH _ _ H) as (Hall & Hb & Hcase). split; [|split; [done|]].
    + intros [|k] q0 Hk; cbn in Hk; [done|by eapply Hall].
    + destruct Hcase as [?|(k & -> & Hk & Hbefore & Hlt)]; [by left|right].
      exists (S k). split; [lia|]. split; [done|]. split; [|done].
      intros [|k'] q0 Hk' Hq0; cbn in Hq0; [done|].
      eapply Hbefore; [|done]. lia.
Qed.

Lemma idxmax_spec (l : list (option Q)) (j : nat) :
  idxmax l = Return j ->
  exists b, l !! j = Some (Some b) /\
            (forall k q, l !! k = Some (Some q) -> (q <= b)%Q) /\
            (forall k q, (k < j)%nat -> l !! k = Some (Some q) -> (q < b)%Q).
Proof.
  unfold idxmax. destruct (idxmax_from 0 None l) as [[i b]|] eqn:E; [|done].
  intros [= ->]. destruct (idxmax_from_spec _ _ _ _ _ E) as (Hall & _ & Hcase).
  destruct Hcase as [?|(k & -> & Hk & Hbefore & _)]; [done|].
  exists b. by repeat split.
Qed.


(** X15. The best month of a campaign is a month of largest mean rate, and
    among several such months the first in the table: its rate is the
    largest of the column, strictly larger than that of every earlier
    row, and it is reported as a percentage under the month's
    three-letter name. *)
Theorem best_month_largest (mp : list month_row) (campaign : string)
        (name : string) (rate : option Q) :
  best_month mp campaign = Return (name, rate) ->
  exists i row r,
    mp !! i = Some row /\
    month_values row !! campaign = Some r /\
    rate = Some (r * 100)%Q /\
    month_map !! Month row = Some name /\
    (forall i' row' r', mp !! i' = Some row' ->
                        month_values row' !! campaign = Some r' -> (r' <= r)%Q) /\
    (forall i' row' r', (i' < i)%nat -> mp !! i' = Some row' ->
                        month_values row' !! campaign = Some r' -> (r' < r)%Q).
Proof.
  unfold best_month. intros H. bind_inv H.
  apply idxmax_spec in Hx as (b & Hb & Hall & Hbefore).
  rewrite list_lookup_fmap in Hb.
  destruct (mp !! x) as [row|] eqn:Hrow; [|done]. cbn in Hb. injection Hb as Hb.
  destruct (month_map !! Month row) as [nm|] eqn:Hname; [|done].
  injection H as <- <-.
  exists x, row, b. rewrite Hb. do 4 (split; [done|]). split.
  - intros i' row' r' Hi' Hr'. apply (Hall i'). by rewrite list_lookup_fmap, Hi'; cbn; f_equal.
  - intros i' row' r' Hlt Hi' Hr'. apply (Hbefore i'); [done|].
    by rewrite list_lookup_fmap, Hi'; cbn; f_equal.
Qed.

Lemma best_month_largest_witness :
  let mp := [mkMonthRow 3 {["Summer Fruit Bundle" := (1 # 10)%Q]};
             mkMonthRow 7 {["Summer Fruit Bundle" := (3 # 10)%Q]};
             mkMonthRow 9 {["Summer Fruit Bundle" := (3 # 10)%Q]}] in
  best_month mp "Summer Fruit Bundle" = Return ("JUL", Some ((3 # 10) * 100)%Q) /\
  exists i row r,
    mp !! i = Some row /\ month_values row !! "Summer Fruit Bundle" = Some r /\
    forall i' row' r', mp !! i' = Some row' ->
                       month_values row' !! "Summer Fruit Bundle" = Some r' -> (r' <= r)%Q.
Proof.
  intros mp. split; [reflexivity|].
  destruct (best_month_largest mp "Summer Fruit Bundle" "JUL" (Some ((3 # 10) * 100)%Q) eq_refl)
    as (i & row & r & Hi & Hr & _ & _ & Hall & _).
  by exists i, row, r.
Defined.

(** X16. When no customer is left after filtering, the best-month step
    fails: the monthly table is empty and [idxmax] raises ValueError for
    the first campaign. *)
Theorem best_months_no_rows (filtered_df : DataFrame) :
  get_column filtered_df "Month" = Return [] ->
  (forall campaign, campaign ∈ COLORS_keys -> campaign ∈ columns filtered_df) ->
  monthly_performance filtered_df = Return [] /\
  monthly_performance filtered_df ≫= best_months = Raise ValueError.
Proof.
  intros Hmonth Hcols.
  assert (Hmp : monthly_performance filtered_df = Return []).
  { unfold monthly_performance. rewrite Hmonth. cbn [mbind outcome_bind obind].
    destruct (omapM_total (fun c => col ← get_column filtered_df c; Return (c, col))
                          COLORS_keys) as [cols ->]; [|done].
    intros c Hc. destruct (get_column_present _ _ (Hcols c Hc)) as [col ->].
    by eexists. }
  split; [done|]. by rewrite Hmp.
Qed.

Lemma best_months_no_rows_witness :
  let df := [("Month", []); ("Spring Wine Festival", []); ("Summer Fruit Bundle", []);
             ("Autumn Meat Sampler", []); ("Winter Seafood Discount", [])] in
  monthly_performance df ≫= best_months = Raise ValueError.
Proof.
  intros df. apply (best_months_no_rows df); [reflexivity|].
  intros c Hc. unfold COLORS_keys in Hc. rewrite !elem_of_cons, elem_of_nil in Hc.
  apply list_elem_of_In. destruct Hc as [->|[->|[->|[->|[]]]]]; vm_compute; tauto.
Defined.

(** ** The year comparison *)

Lemma Qsum_bounds (l : list Q) (a b : Q) :
  (forall x, x ∈ l -> (a <= x <= b)%Q) ->
  (a * inject_Z (Z.of_nat (length l)) <= Qsum l
   <= b * inject_Z (Z.of_nat (length l)))%Q.
Proof.
  induction l as [|x l IH]; intros Hall.
  - cbn. split; ring_simplify; apply Qle_refl.
  - destruct (Hall x) as [Hax Hxb]; [left|].
    destruct IH as [IH1 IH2]; [intros y Hy; apply Hall; by right|].
    cbn [length Qsum foldr]. fold (Qsum l).
    rewrite Nat2Z.inj_succ, <- Z.add_1_l, inject_Z_plus.
    change (inject_Z 1) with 1%Q. split; lra.
Qed.

(** A mean lies between the bounds of its entries. *)
Lemma mean_bounds (l : list Q) (a b v : Q) :
  (forall x, x ∈ l -> (a <= x <= b)%Q) -> mean l = Some v -> (a <= v <= b)%Q.
Proof.
  intros Hall Hv. destruct (Qsum_bounds l a b Hall) as [H1 H2].
  destruct l as [|x l]; [done|]. cbn [mean] in Hv. injection Hv as <-.
  set (n := inject_Z (Z.of_nat (length (x :: l)))) in *.
  assert (Hn : (0 < n)%Q) by (unfold n, Qlt; cbn; lia).
  split.
  - apply Qle_shift_div_l; [exact Hn|exact H1].
  - apply Qle_shift_div_r; [exact Hn|exact H2].
Qed.

Lemma grid_rate_bounds (data : list (option Z * ym_row)) (year month : Z) :
  (forall r, r ∈ data -> exists q, Response_Rate r.2 = Some q /\ (0 <= q <= 100)%Q) ->
  exists v, grid_rate data year month = Some v /\ (0 <= v <= 100)%Q.
Proof.
  intros Hall. unfold grid_rate.
  destruct (filter _ data) as [|r l] eqn:Ef.
  - destruct (mean _) as [a|] eqn:Ea.
    + exists a. split; [done|]. eapply mean_bounds; [|exact Ea].
      intros x Hx. apply list_elem_of_omap in Hx as (r & Hr & Hrate).
      apply list_elem_of_filter in Hr as [_ Hr].
      destruct (Hall r Hr) as (q & Hq & Hb). congruence.
    + exists 0%Q. split; [done|]. split; discriminate.
  - assert (Hr : r ∈ data).
    { assert (Hin : r ∈ filter (fun r0 : option Z * ym_row =>
                                  r0.1 = Some year /\ ym_Month r0.2 = month) data)
        by (rewrite Ef; left).
      by apply list_elem_of_filter in Hin as [_ ?]. }
    destruct (Hall r Hr) as (q & Hq & Hb). by exists q.
Qed.

(** X17. The completed comparison table never fails and always has the 24
    rows of 2023 and 2024, January to December, each under the
    three-letter name of its month; when the observed rates are
    percentages between 0 and 100, so is every rate of the table, also
    the ones filled in for months without data. *)
Theorem full_data_list_complete (data : list (option Z * ym_row)) :
  exists rows,
    full_data_list data = Return rows /\
    (fun r => (grid_Year r, grid_Month r)) <$> rows
    = (y ← [2023; 2024]; (fun m => (y, m)) <$> seqZ 1 12) /\
    Forall (fun r => month_map !! grid_Month r = Some (grid_Month_Name r) /\
                     grid_Rate r = grid_rate data (grid_Year r) (grid_Month r)) rows /\
    ((forall r, r ∈ data ->
                exists q, Response_Rate r.2 = Some q /\ (0 <= q <= 100)%Q) ->
     Forall (fun r => exists v, grid_Rate r = Some v /\ (0 <= v <= 100)%Q) rows).
Proof.
  assert (Hrows : exists rows,
    full_data_list data = Return rows /\
    (fun r => (grid_Year r, grid_Month r)) <$> rows
    = (y ← [2023; 2024]; (fun m => (y, m)) <$> seqZ 1 12) /\
    Forall (fun r => month_map !! grid_Month r = Some (grid_Month_Name r) /\
                     grid_Rate r = grid_rate data (grid_Year r) (grid_Month r)) rows).
  { unfold full_data_list. generalize (grid_rate data). intros g.
    eexists. split; [vm_compute; reflexivity|]. split; [reflexivity|].
    repeat (apply List.Forall_cons; [split; reflexivity|]). apply List.Forall_nil. }
  destruct Hrows as (rows & Hret & Hkeys & Hall).
  exists rows. do 3 (split; [done|]). intros Hb.
  eapply Forall_impl; [exact Hall|]. intros r [_ ->]. cbn.
  by apply grid_rate_bounds.
Qed.

Lemma full_data_list_complete_witness :
  let data := [(Some 2023, mkYM 2021 3 (Some 40%Q)); (Some 2024, mkYM 2022 3 (Some 10%Q))] in
  exists rows,
    full_data_list data = Return rows /\ length rows = 24%nat /\
    Forall (fun r => exists v, grid_Rate r = Some v /\ (0 <= v <= 100)%Q) rows.
Proof.
  intros data.
  destruct (full_data_list_complete data) as (rows & Hret & Hkeys & _ & Hb).
  exists rows. split; [done|]. split.
  - apply (f_equal length) in Hkeys. by rewrite length_fmap in Hkeys.
  - apply Hb. intros r Hr. apply list_elem_of_In in Hr.
    destruct Hr as [<-|[<-|[]]]; eexists; (split; [reflexivity|]); split; discriminate.
Defined.

Lemma last_two_sorted (l : list Z) :
  StronglySorted Z.lt l -> (2 <= length l)%nat ->
  exists l0 y0 y1,
    l = l0 ++ [y0; y1] /\ drop (length l - 2) l = [y0; y1] /\
    y0 < y1 /\ forall y, y ∈ l0 -> y < y0.
Proof.
  intros Hs Hlen.
  pose proof (take_drop (length l - 2) l) as Hsplit.
  pose proof (length_drop l (length l - 2)) as Hd.
  destruct (drop (length l - 2) l) as [|y0 [|y1 [|y2 l2]]] eqn:Ed;
    cbn in Hd; try lia.
  exists (take (length l - 2) l), y0, y1. split; [done|]. split; [done|].
  rewrite <- Hsplit in Hs. apply StronglySorted_app in Hs as (Hcross & _ & Hs2).
  split.
  - apply StronglySorted_cons in Hs2 as [Hall _].
    by apply Forall_cons in Hall as [? _].
  - intros y Hy. apply Hcross; [done|left].
Qed.

Lemma filter_labelled {A B} (lab : A -> B) (P : B * A -> Prop)
      `{!forall x, Decision (P x)} (l : list A) :
  filter P ((fun r => (lab r, r)) <$> l)
  = (fun r => (lab r, r)) <$> filter (fun r => P (lab r, r)) l.
Proof.
  induction l as [|a l IH]; [done|]. rewrite fmap_cons.
  destruct (decide (P (lab a, a))) as [HP|HP].
  - rewrite !filter_cons_True by done. by rewrite fmap_cons, IH.
  - by rewrite !filter_cons_False by done.
Qed.

Lemma filter_filter_as {A} (P Q' R : A -> Prop) `{!forall x, Decision (P x)}
      `{!forall x, Decision (Q' x)} `{!forall x, Decision (R x)} (l : list A) :
  (forall x, R x <-> P x /\ Q' x) -> filter Q' (filter P l) = filter R l.
Proof.
  intros HR. rewrite list_filter_filter. apply list_filter_iff.
  intros x. rewrite HR. tauto.
Qed.

Lemma filter_never {A} (P : A -> Prop) `{!forall x, Decision (P x)} (l : list A) :
  (forall x, ~ P x) -> filter P l = [].
Proof.
  intros HP. induction l as [|a l IH]; [done|].
  by rewrite filter_cons_False by apply HP.
Qed.

Lemma omap_labelled {A B} (lab : A -> B) (f : A -> option Q) (l : list A) :
  omap (fun r : B * A => f r.2) ((fun r => (lab r, r)) <$> l) = omap f l.
Proof.
  induction l as [|a l IH]; [done|]. cbn. rewrite IH. done.
Qed.

(** The rate of a month under a label, read off the rows before they
    are labelled. *)
Lemma grid_rate_labelled (lab : ym_row -> option Z) (rows : list ym_row)
      (year month : Z) :
  grid_rate ((fun r => (lab r, r)) <$> rows) year month
  = match filter (fun r => lab r = Some year /\ ym_Month r = month) rows with
    | r :: _ => Response_Rate r
    | [] =>
        match mean (omap Response_Rate (filter (fun r => lab r = Some year) rows)) with
        | Some a => Some a
        | None => Some 0%Q
        end
    end.
Proof.
  unfold grid_rate.
  rewrite (filter_labelled lab (fun r => r.1 = Some year /\ ym_Month r.2 = month)).
  rewrite (filter_labelled lab (fun r => r.1 = Some year)).
  rewrite (omap_labelled lab Response_Rate). cbn [fst snd].
  by destruct (filter _ rows).
Qed.

Lemma available_years_increasing (trends : list ym_row) :
  StronglySorted Z.lt (available_years trends).
Proof. apply sorted_increasing, NoDup_unique. Qed.

Lemma elem_of_available_years (trends : list ym_row) (y : Z) :
  y ∈ available_years trends <-> y ∈ ym_Year <$> trends.
Proof. unfold available_years. by rewrite sorted_Permutation, elem_of_unique. Qed.

(** X18. With two or more years in the data the comparison shows the two
    latest years: under the label 2023 the second latest year of the
    data and under 2024 the latest, month by month, whatever those years
    really are. *)
Theorem comparison_relabels (trends : list ym_row) :
  (2 <= length (available_years trends))%nat ->
  exists y0 y1,
    real_comparison_years trends = [y0; y1] /\ y0 < y1 /\
    y0 ∈ ym_Year <$> trends /\ y1 ∈ ym_Year <$> trends /\
    (forall y, y ∈ ym_Year <$> trends -> y = y1 \/ y = y0 \/ y < y0) /\
    forall month,
      grid_rate (comparison_data trends) 2023 month = year_rate trends y0 month /\
      grid_rate (comparison_data trends) 2024 month = year_rate trends y1 month.
Proof.
  intros Hlen.
  destruct (last_two_sorted _ (available_years_increasing trends) Hlen)
    as (l0 & y0 & y1 & Hl & Hdrop & Hlt & Hbelow).
  assert (Hreal : real_comparison_years trends = [y0; y1]).
  { unfold real_comparison_years. by apply Nat.leb_le in Hlen as ->. }
  exists y0, y1. split; [done|]. split; [done|].
  assert (Hin : forall y, y ∈ ym_Year <$> trends <-> y ∈ l0 \/ y = y0 \/ y = y1).
  { intros y. rewrite <- elem_of_available_years, Hl, elem_of_app, !elem_of_cons, elem_of_nil.
    tauto. }
  split; [apply Hin; tauto|]. split; [apply Hin; tauto|]. split.
  { intros y [Hy|[->| ->]]%Hin; [right; right; by apply Hbelow|tauto|tauto]. }
  intros month. unfold comparison_data. rewrite Hreal. cbn [comparison_year_mapping].
  rewrite !grid_rate_labelled. unfold year_rate.
  assert (H23 : forall y, <[y1:=2024]> (<[y0:=2023]> (∅ : gmap Z Z)) !! y = Some 2023
                          <-> y = y0).
  { intros y. destruct (decide (y = y1)) as [->|Hn1].
    - rewrite lookup_insert_eq. split; [done|lia].
    - rewrite lookup_insert_ne by done. destruct (decide (y = y0)) as [->|Hn0].
      + by rewrite lookup_insert_eq.
      + rewrite lookup_insert_ne by done. by rewrite lookup_empty. }
  assert (H24 : forall y, <[y1:=2024]> (<[y0:=2023]> (∅ : gmap Z Z)) !! y = Some 2024
                          <-> y = y1).
  { intros y. destruct (decide (y = y1)) as [->|Hn1].
    - by rewrite lookup_insert_eq.
    - rewrite lookup_insert_ne by done. destruct (decide (y = y0)) as [->|Hn0].
      + rewrite lookup_insert_eq. split; [done|lia].
      + rewrite lookup_insert_ne by done. by rewrite lookup_empty. }
  split.
  - rewrite (filter_filter_as _ _ (fun r => ym_Year r = y0 /\ ym_Month r = month)).
    2: { intros r. rewrite H23, !elem_of_cons, elem_of_nil.
         split; [intros [-> ?]; tauto|tauto]. }
    rewrite (filter_filter_as _ _ (fun r => ym_Year r = y0)).
    2: { intros r. rewrite H23, !elem_of_cons, elem_of_nil.
         split; [intros ->; tauto|tauto]. }
    done.
  - rewrite (filter_filter_as _ _ (fun r => ym_Year r = y1 /\ ym_Month r = month)).
    2: { intros r. rewrite H24, !elem_of_cons, elem_of_nil.
         split; [intros [-> ?]; tauto|tauto]. }
    rewrite (filter_filter_as _ _ (fun r => ym_Year r = y1)).
    2: { intros r. rewrite H24, !elem_of_cons, elem_of_nil.
         split; [intros ->; tauto|tauto]. }
    done.
Qed.

Lemma comparison_relabels_witness :
  let trends := [mkYM 2019 5 (Some 10%Q); mkYM 2020 5 (Some 20%Q);
                 mkYM 2021 5 (Some 30%Q); mkYM 2021 6 (Some 50%Q)] in
  real_comparison_years trends = [2020; 2021] /\
  grid_rate (comparison_data trends) 2023 5 = Some 20%Q /\
  grid_rate (comparison_data trends) 2024 6 = Some 50%Q.
Proof.
  intros trends.
  destruct (comparison_relabels trends) as (y0 & y1 & Hreal & _ & _ & _ & _ & Hgrid).
  - vm_compute. lia.
  - assert (Hy : [y0; y1] = [2020; 2021]) by (rewrite <- Hreal; reflexivity).
    injection Hy as -> ->. split; [done|].
    destruct (Hgrid 5) as [-> _]. destruct (Hgrid 6) as [_ ->].
    split; reflexivity.
Defined.

(** X19. With a single year in the data, or none, nothing is shown under
    2024: every month of 2024 gets the rate 0. *)
Theorem comparison_single_year (trends : list ym_row) (month : Z) :
  (length (available_years trends) <= 1)%nat ->
  grid_rate (comparison_data trends) 2024 month = Some 0%Q.
Proof.
  intros Hlen. unfold comparison_data, real_comparison_years.
  assert ((2 <=? length (available_years trends))%nat = false) as ->
    by (apply Nat.leb_gt; lia).
  rewrite grid_rate_labelled.
  assert (Hno : forall y, comparison_year_mapping (available_years trends) !! y
                          <> Some 2024).
  { intros y. destruct (available_years trends) as [|y0 [|y1 l]]; cbn in Hlen |- *.
    - by rewrite lookup_empty.
    - destruct (decide (y = y0)) as [->|Hne].
      + by rewrite lookup_insert_eq.
      + rewrite lookup_insert_ne by done. by rewrite lookup_empty.
    - lia. }
  rewrite !filter_never; [done| |]; intros r; specialize (Hno (ym_Year r)); tauto.
Qed.

Lemma comparison_single_year_witness :
  grid_rate (comparison_data [mkYM 2021 5 (Some 30%Q); mkYM 2021 6 (Some 50%Q)]) 2024 5
  = Some 0%Q.
Proof.
  apply (comparison_single_year [mkYM 2021 5 (Some 30%Q); mkYM 2021 6 (Some 50%Q)] 5).
  vm_compute. lia.
Defined.
